(** * FastAPI e-commerce backend: categories, products, reviews

    A shallow embedding of the request handlers of [app/routers] over the
    tables declared in [app/models].  A table is the list of its rows in
    insertion order, a handler is a computation in a small session monad
    (pending writes, commit, rollback, raised exceptions), and the SQL
    functions used by the handlers ([avg], [round]) are exact rational
    functions. *)

From Stdlib Require Import String DecimalString ZArith QArith Qround Qabs Lqa
  List Bool Lia.
Import ListNotations.

Local Open Scope string_scope.
Local Open Scope Z_scope.

(** ** Tables ([app/models]) *)

Module CategoryModel.
Record t := mk
  { id : Z;
    name : string;
    parent_id : option Z;
    is_active : bool }.

Definition set_name (v : string) (c : t) : t :=
  mk (id c) v (parent_id c) (is_active c).
Definition set_parent_id (v : option Z) (c : t) : t :=
  mk (id c) (name c) v (is_active c).
Definition set_is_active (v : bool) (c : t) : t :=
  mk (id c) (name c) (parent_id c) v.
End CategoryModel.

Module ProductModel.
Record t := mk
  { id : Z;
    name : string;
    description : option string;
    price : Q;
    image_url : option string;
    stock : Z;
    is_active : bool;
    rating : Q;
    category_id : Z;
    seller_id : Z }.

Definition set_name (v : string) (p : t) : t :=
  mk (id p) v (description p) (price p) (image_url p) (stock p)
     (is_active p) (rating p) (category_id p) (seller_id p).
Definition set_description (v : option string) (p : t) : t :=
  mk (id p) (name p) v (price p) (image_url p) (stock p)
     (is_active p) (rating p) (category_id p) (seller_id p).
Definition set_price (v : Q) (p : t) : t :=
  mk (id p) (name p) (description p) v (image_url p) (stock p)
     (is_active p) (rating p) (category_id p) (seller_id p).
Definition set_image_url (v : option string) (p : t) : t :=
  mk (id p) (name p) (description p) (price p) v (stock p)
     (is_active p) (rating p) (category_id p) (seller_id p).
Definition set_stock (v : Z) (p : t) : t :=
  mk (id p) (name p) (description p) (price p) (image_url p) v
     (is_active p) (rating p) (category_id p) (seller_id p).
Definition set_is_active (v : bool) (p : t) : t :=
  mk (id p) (name p) (description p) (price p) (image_url p) (stock p)
     v (rating p) (category_id p) (seller_id p).
Definition set_rating (v : Q) (p : t) : t :=
  mk (id p) (name p) (description p) (price p) (image_url p) (stock p)
     (is_active p) v (category_id p) (seller_id p).
Definition set_category_id (v : Z) (p : t) : t :=
  mk (id p) (name p) (description p) (price p) (image_url p) (stock p)
     (is_active p) (rating p) v (seller_id p).
End ProductModel.

Module ReviewModel.
Record t := mk
  { id : Z;
    user_id : Z;
    product_id : Z;
    comment : string;
    comment_date : Z;
    grade : Z;
    is_active : bool }.

Definition set_is_active (v : bool) (r : t) : t :=
  mk (id r) (user_id r) (product_id r) (comment r) (comment_date r)
     (grade r) v.

(** [CheckConstraint('grade >= 1 AND grade <= 5', name='check_grade_range')] *)
Definition check_grade_range (r : t) : bool :=
  (1 <=? grade r) && (grade r <=? 5).
End ReviewModel.

(** Modelled from the spec: [app/models/users.py] is not part of the
    sources; a user has an id and one of the three roles.  The handlers
    receive the authenticated user from [get_current_seller],
    [get_current_buyer] or [get_current_admin] and read only its id. *)
Module UserModel.
Inductive Role := buyer | seller | admin.
Record t := mk { id : Z; role : Role }.
End UserModel.

(** The relational store: one list of rows per table. *)
Record DB := mkDB
  { categories : list CategoryModel.t;
    products : list ProductModel.t;
    reviews : list ReviewModel.t }.

Definition empty_db : DB := mkDB [] [] [].

Definition with_categories (v : list CategoryModel.t) (db : DB) : DB :=
  mkDB v (products db) (reviews db).
Definition with_products (v : list ProductModel.t) (db : DB) : DB :=
  mkDB (categories db) v (reviews db).
Definition with_reviews (v : list ReviewModel.t) (db : DB) : DB :=
  mkDB (categories db) (products db) v.

(** ** Request bodies ([app/schemas])

    Modelled from the spec: [app/schemas.py] is not part of the sources.
    A pydantic field that the client may leave out is [Unset] or
    [Provided v]; reading an unset field yields its default [None], and
    [model_dump(exclude_unset=True)] keeps the provided fields only. *)

Inductive field (A : Type) : Type :=
| Unset : field A
| Provided : A -> field A.
Arguments Unset {A}.
Arguments Provided {A} _.

Definition value {A} (f : field (option A)) : option A :=
  match f with
  | Unset => None
  | Provided v => v
  end.

Module CategoryCreate.
Record t := mk
  { name : string;
    parent_id : field (option Z) }.
End CategoryCreate.

Module ProductCreate.
Record t := mk
  { name : string;
    description : field (option string);
    price : Q;
    image_url : field (option string);
    stock : Z;
    category_id : field (option Z) }.
End ProductCreate.

Module ReviewCreate.
Record t := mk
  { product_id : Z;
    comment : string;
    grade : Z }.
End ReviewCreate.

(** ** Failures *)

Inductive Failure :=
| HTTPException (status_code : Z) (detail : string)
  (** any other exception: [log_middleware] answers 500 [{success: False}] *)
| Unhandled (exc : string).

Definition HTTP_400_BAD_REQUEST : Z := 400.
Definition HTTP_403_FORBIDDEN : Z := 403.
Definition HTTP_404_NOT_FOUND : Z := 404.

(** ** The session monad

    A session holds the committed tables and the pending ones.  Statements
    read and write the pending tables; [commit] publishes them and
    [rollback] discards them.  When a handler raises, the session is closed
    and only what was committed remains. *)

Record Session := mkSession
  { committed : DB;
    pending : DB }.

Definition M (A : Type) : Type := Session -> (Failure + A) * Session.

Definition ret {A} (a : A) : M A := fun s => (inr a, s).

Definition bind {A B} (m : M A) (k : A -> M B) : M B :=
  fun s =>
    match m s with
    | (inl e, s') => (inl e, s')
    | (inr a, s') => k a s'
    end.

Definition raise {A} (e : Failure) : M A := fun s => (inl e, s).

Definition query {A} (q : DB -> A) : M A := fun s => (inr (q (pending s)), s).

Definition execute (w : DB -> DB) : M unit :=
  fun s => (inr tt, mkSession (committed s) (w (pending s))).

Definition commit : M unit :=
  fun s => (inr tt, mkSession (pending s) (pending s)).

Definition rollback : M unit :=
  fun s => (inr tt, mkSession (committed s) (committed s)).

Declare Scope session_scope.
Delimit Scope session_scope with session.
Notation "x <- m ;; k" := (bind m (fun x => k))
  (at level 61, m at next level, right associativity) : session_scope.
Notation "m ;;; k" := (bind m (fun _ => k))
  (at level 61, right associativity) : session_scope.

(** Serving one request: open a session on the store, run the handler and
    keep what it committed. *)
Definition serve {A} (h : M A) (db : DB) : (Failure + A) * DB :=
  let (r, s) := h (mkSession db db) in (r, committed s).

(** ** SQL building blocks *)

(** [select(...).where(p)] followed by [db.scalar]: the first matching row. *)
Definition scalar {R} (rows : list R) : option R := hd_error rows.

(** [select(...).where(p)] followed by [db.scalars(...).all()]. *)
Definition select_where {R} (p : R -> bool) (table : list R) : list R :=
  filter p table.

(** [update(Model).where(p).values(...)]. *)
Definition update_where {R} (p : R -> bool) (f : R -> R) (table : list R)
  : list R :=
  map (fun r => if p r then f r else r) table.

(** The primary key given to an inserted row: larger than every key of the
    table. *)
Definition next_id (ids : list Z) : Z := 1 + fold_right Z.max 0 ids.

(** [func.avg] over a column of integers: NULL on no rows. *)
Definition func_avg (xs : list Z) : option Q :=
  match xs with
  | [] => None
  | _ => Some (Qred (inject_Z (fold_right Z.add 0 xs)
                     / inject_Z (Z.of_nat (length xs))))
  end.

(** [func.round(x, n)] for [0 <= n]: to the nearest multiple of [10^-n],
    ties away from zero. *)
Definition func_round (x : Q) (n : Z) : Q :=
  let s := inject_Z (10 ^ n) in
  let nearest (y : Q) : Z := Qfloor (y * s + (1 # 2))%Q in
  Qred (if Qle_bool 0 x
        then inject_Z (nearest x) / s
        else - (inject_Z (nearest (- x)%Q) / s))%Q.

(** An f-string's rendering of an integer. *)
Definition str (n : Z) : string := NilZero.string_of_int (Z.to_int n).

Local Open Scope session_scope.

(** ** [app/routers/categories.py] *)

Definition category_by_id (category_id : Z) (c : CategoryModel.t) : bool :=
  CategoryModel.id c =? category_id.

Definition active_category_by_id (category_id : Z) (c : CategoryModel.t)
  : bool :=
  (CategoryModel.id c =? category_id) && CategoryModel.is_active c.

(** [category.model_dump(exclude_unset=True)] as the assignment it stands
    for when it is passed to [.values]. *)
Definition category_values (category : CategoryCreate.t)
  : CategoryModel.t -> CategoryModel.t :=
  fun c =>
    let c := CategoryModel.set_name (CategoryCreate.name category) c in
    match CategoryCreate.parent_id category with
    | Unset => c
    | Provided v => CategoryModel.set_parent_id v c
    end.

(** [db.add] of a [CategoryModel] built from [category.model_dump()]: the
    row gets its id
    from the table and the column default [is_active=True]. *)
Definition add_category (category : CategoryCreate.t) : M CategoryModel.t :=
  new_id <- query (fun db => next_id (map CategoryModel.id (categories db))) ;;
  let db_category :=
    CategoryModel.mk new_id (CategoryCreate.name category)
                     (value (CategoryCreate.parent_id category)) true in
  execute (fun db => with_categories (categories db ++ [db_category]) db) ;;;
  ret db_category.

Definition get_all_categories : M (list CategoryModel.t) :=
  query (fun db => select_where CategoryModel.is_active (categories db)).

Definition create_category (category : CategoryCreate.t) : M CategoryModel.t :=
  match value (CategoryCreate.parent_id category) with
  | Some parent_id =>
      result <- query (fun db =>
        scalar (select_where (active_category_by_id parent_id)
                             (categories db))) ;;
      match result with
      | None => raise (HTTPException 400 "Parent category not found")
      | Some _ => ret tt
      end
  | None => ret tt
  end ;;;
  db_category <- add_category category ;;
  commit ;;;
  ret db_category.

Definition update_category (category_id : Z) (category : CategoryCreate.t)
  : M CategoryModel.t :=
  db_category <- query (fun db =>
    scalar (select_where (active_category_by_id category_id)
                         (categories db))) ;;
  match db_category with
  | None => raise (HTTPException HTTP_404_NOT_FOUND "Category not found")
  | Some db_category =>
      match value (CategoryCreate.parent_id category) with
      | Some parent_id =>
          parent <- query (fun db =>
            scalar (select_where (category_by_id parent_id)
                                 (categories db))) ;;
          match parent with
          | None =>
              raise (HTTPException HTTP_404_NOT_FOUND
                                   "Parent category not found")
          | Some parent =>
              if CategoryModel.id parent =? category_id
              then raise (HTTPException HTTP_400_BAD_REQUEST
                                        "Category cannot be its own parent")
              else ret tt
          end
      | None => ret tt
      end ;;;
      let updated_category := category_values category in
      execute (fun db =>
        with_categories (update_where (category_by_id category_id)
                                      updated_category (categories db)) db) ;;;
      commit ;;;
      (* the session keeps the loaded object in step with the UPDATE *)
      ret (updated_category db_category)
  end.

Definition delete_category (category_id : Z) : M (string * string) :=
  category <- query (fun db =>
    scalar (select_where (active_category_by_id category_id)
                         (categories db))) ;;
  match category with
  | None => raise (HTTPException HTTP_404_NOT_FOUND "Category not found")
  | Some _ =>
      execute (fun db =>
        with_categories (update_where (category_by_id category_id)
                                      (CategoryModel.set_is_active false)
                                      (categories db)) db) ;;;
      commit ;;;
      ret ("success",
           "Category with ID " ++ str category_id ++ " marked as inactive")
  end.

(** ** [app/routers/products.py] *)

Definition product_by_id (product_id : Z) (p : ProductModel.t) : bool :=
  ProductModel.id p =? product_id.

Definition active_product_by_id (product_id : Z) (p : ProductModel.t) : bool :=
  (ProductModel.id p =? product_id) && ProductModel.is_active p.

(** [product_update.model_dump(exclude_unset=True)] as the assignment it
    stands for when it is passed to [.values]; [category_id] is NOT NULL and
    is dealt with by [execute_product_update]. *)
Definition product_values (product_update : ProductCreate.t)
  : ProductModel.t -> ProductModel.t :=
  fun p =>
    let p := ProductModel.set_name (ProductCreate.name product_update) p in
    let p := match ProductCreate.description product_update with
             | Unset => p
             | Provided v => ProductModel.set_description v p
             end in
    let p := ProductModel.set_price (ProductCreate.price product_update) p in
    let p := match ProductCreate.image_url product_update with
             | Unset => p
             | Provided v => ProductModel.set_image_url v p
             end in
    let p := ProductModel.set_stock (ProductCreate.stock product_update) p in
    match ProductCreate.category_id product_update with
    | Provided (Some v) => ProductModel.set_category_id v p
    | _ => p
    end.

(** The UPDATE of [update_product]: writing NULL into [category_id] breaks
    its NOT NULL constraint, and nothing catches that IntegrityError. *)
Definition execute_product_update (product_id : Z)
  (product_update : ProductCreate.t) : M unit :=
  match ProductCreate.category_id product_update with
  | Provided None => raise (Unhandled "IntegrityError")
  | _ =>
      execute (fun db =>
        with_products (update_where (product_by_id product_id)
                                    (product_values product_update)
                                    (products db)) db)
  end.

(** [db.add] of a [ProductModel] built from [product.model_dump()] and the
    seller's id, flushed by the commit that follows: the row gets its id from
    the table and the column defaults [is_active=True], [rating=0.0]; a
    missing [category_id] breaks its NOT NULL constraint. *)
Definition add_product (product : ProductCreate.t) (seller_id : Z)
  : M ProductModel.t :=
  match value (ProductCreate.category_id product) with
  | None => raise (Unhandled "IntegrityError")
  | Some category_id =>
      new_id <- query (fun db => next_id (map ProductModel.id (products db))) ;;
      let db_product :=
        ProductModel.mk new_id (ProductCreate.name product)
                        (value (ProductCreate.description product))
                        (ProductCreate.price product)
                        (value (ProductCreate.image_url product))
                        (ProductCreate.stock product)
                        true 0%Q category_id seller_id in
      execute (fun db => with_products (products db ++ [db_product]) db) ;;;
      ret db_product
  end.

(** What [.all()] hands back: always a list, never [None]. *)
Definition all {R} (rows : list R) : option (list R) := Some rows.

Definition get_all_products : M (list ProductModel.t) :=
  query (fun db => select_where ProductModel.is_active (products db)).

Definition create_product (product : ProductCreate.t)
  (current_user : UserModel.t) : M ProductModel.t :=
  match value (ProductCreate.category_id product) with
  | Some category_id =>
      categorie <- query (fun db =>
        scalar (select_where (active_category_by_id category_id)
                             (categories db))) ;;
      match categorie with
      | None => raise (HTTPException HTTP_404_NOT_FOUND "Category not found")
      | Some _ => ret tt
      end
  | None => ret tt
  end ;;;
  db_product <- add_product product (UserModel.id current_user) ;;
  commit ;;;
  ret db_product.

Definition get_products_by_category (category_id : Z)
  : M (list ProductModel.t) :=
  category <- query (fun db =>
    scalar (select_where (active_category_by_id category_id)
                         (categories db))) ;;
  match category with
  | None => raise (HTTPException HTTP_404_NOT_FOUND "Category not found")
  | Some _ =>
      child_ids <- query (fun db =>
        all (map CategoryModel.id
               (select_where
                  (fun c =>
                     match CategoryModel.parent_id c with
                     | Some parent_id => parent_id =? category_id
                     | None => false
                     end && CategoryModel.is_active c)
                  (categories db)))) ;;
      match child_ids with
      | None =>
          query (fun db =>
            select_where
              (fun p => (ProductModel.category_id p =? category_id)
                        && ProductModel.is_active p)
              (products db))
      | Some child_ids =>
          let category_ids := ([category_id] ++ child_ids)%list in
          query (fun db =>
            select_where
              (fun p => existsb (Z.eqb (ProductModel.category_id p))
                                category_ids)
              (products db))
      end
  end.

Definition get_product (product_id : Z) : M ProductModel.t :=
  product <- query (fun db =>
    scalar (select_where (active_product_by_id product_id) (products db))) ;;
  match product with
  | None => raise (HTTPException HTTP_404_NOT_FOUND "Product not found")
  | Some product => ret product
  end.

Definition update_product (product_id : Z) (product_update : ProductCreate.t)
  (current_user : UserModel.t) : M ProductModel.t :=
  product <- query (fun db =>
    scalar (select_where (product_by_id product_id) (products db))) ;;
  match product with
  | None => raise (HTTPException HTTP_404_NOT_FOUND "Product not found")
  | Some product =>
      if negb (ProductModel.seller_id product =? UserModel.id current_user)
      then raise (HTTPException HTTP_403_FORBIDDEN
                                "You can only update your products")
      else
        match value (ProductCreate.category_id product_update) with
        | Some category_id =>
            category <- query (fun db =>
              scalar (select_where (active_category_by_id category_id)
                                   (categories db))) ;;
            match category with
            | None =>
                raise (HTTPException HTTP_404_NOT_FOUND "Category not found")
            | Some _ => ret tt
            end
        | None => ret tt
        end ;;;
        execute_product_update product_id product_update ;;;
        commit ;;;
        (* the session keeps the loaded object in step with the UPDATE *)
        ret (product_values product_update product)
  end.

Definition delete_product (product_id : Z) (current_user : UserModel.t)
  : M (string * string) :=
  product <- query (fun db =>
    scalar (select_where (active_product_by_id product_id) (products db))) ;;
  match product with
  | None => raise (HTTPException HTTP_404_NOT_FOUND "Product not found")
  | Some product =>
      if negb (ProductModel.seller_id product =? UserModel.id current_user)
      then raise (HTTPException HTTP_403_FORBIDDEN
                                "You can only delete your products")
      else
        execute (fun db =>
          with_products (update_where (product_by_id product_id)
                                      (ProductModel.set_is_active false)
                                      (products db)) db) ;;;
        commit ;;;
        ret ("success", "Product marked as inactive")
  end.

(** ** [app/routers/reviews.py] *)

Definition active_review_by_id (review_id : Z) (r : ReviewModel.t) : bool :=
  ReviewModel.is_active r && (ReviewModel.id r =? review_id).

Definition active_review_of (product_id : Z) (r : ReviewModel.t) : bool :=
  ReviewModel.is_active r && (ReviewModel.product_id r =? product_id).

(** [select(func.avg(ReviewModel.grade)).where(ReviewModel.is_active,
    ReviewModel.product_id == product_id)]. *)
Definition avg_active_grade (product_id : Z) (db : DB) : option Q :=
  func_avg (map ReviewModel.grade
              (select_where (active_review_of product_id) (reviews db))).

(** [db.add] of a [ReviewModel] built from [review.model_dump()] and the
    buyer's id; [comment_date] defaults to the clock of the store, read
    as [now], and [is_active] to [True]. *)
Definition add_review (review : ReviewCreate.t) (user_id : Z) (now : Z)
  : M ReviewModel.t :=
  new_id <- query (fun db => next_id (map ReviewModel.id (reviews db))) ;;
  let db_review :=
    ReviewModel.mk new_id user_id (ReviewCreate.product_id review)
                   (ReviewCreate.comment review) now
                   (ReviewCreate.grade review) true in
  execute (fun db => with_reviews (reviews db ++ [db_review]) db) ;;;
  ret db_review.

(** The commit that flushes a new review: it is refused with an
    IntegrityError naming [check_grade_range] when the grade is out of
    range. *)
Definition commit_review (db_review : ReviewModel.t) : M (option string) :=
  if ReviewModel.check_grade_range db_review
  then commit ;;; ret None
  else ret (Some "check_grade_range").

(** [update(ProductModel).where(ProductModel.id == product_id)
    .values(rating=func.round(avg_rating, 2))]: rounding NULL gives NULL,
    which the NOT NULL column [rating] refuses. *)
Definition update_rating (product_id : Z) (avg_rating : option Q) : M unit :=
  match avg_rating with
  | None => raise (Unhandled "IntegrityError")
  | Some avg_rating =>
      execute (fun db =>
        with_products (update_where (product_by_id product_id)
                         (ProductModel.set_rating (func_round avg_rating 2))
                         (products db)) db)
  end.

Definition get_reviews : M (list ReviewModel.t) :=
  query (fun db => select_where ReviewModel.is_active (reviews db)).

Definition get_reviews_by_product (product_id : Z) : M (list ReviewModel.t) :=
  product <- query (fun db =>
    scalar (select_where (active_product_by_id product_id) (products db))) ;;
  match product with
  | None =>
      raise (HTTPException HTTP_404_NOT_FOUND
               ("Product with id " ++ str product_id ++ " does not exist."))
  | Some _ =>
      query (fun db =>
        select_where
          (fun r => (ReviewModel.product_id r =? product_id)
                    && ReviewModel.is_active r)
          (reviews db))
  end.

Definition create_review (review : ReviewCreate.t)
  (current_buyer : UserModel.t) (now : Z) : M ReviewModel.t :=
  let product_id := ReviewCreate.product_id review in
  product <- query (fun db =>
    scalar (select_where (active_product_by_id product_id) (products db))) ;;
  match product with
  | None =>
      raise (HTTPException HTTP_404_NOT_FOUND
               ("Product with id " ++ str product_id ++ " does not exist."))
  | Some _ =>
      db_review <- add_review review (UserModel.id current_buyer) now ;;
      e <- commit_review db_review ;;
      match e with
      | Some orig =>
          rollback ;;;
          raise (HTTPException HTTP_400_BAD_REQUEST
                               ("Integrity Error: " ++ orig))
      | None =>
          avg_rating <- query (avg_active_grade product_id) ;;
          update_rating product_id avg_rating ;;;
          commit ;;;
          ret db_review
      end
  end.

Definition delete_review (review_id : Z) : M string :=
  review <- query (fun db =>
    scalar (select_where (active_review_by_id review_id) (reviews db))) ;;
  match review with
  | None =>
      raise (HTTPException HTTP_404_NOT_FOUND
               ("Review with id " ++ str review_id ++ " does not exist."))
  | Some review =>
      execute (fun db =>
        with_reviews (update_where (fun r => ReviewModel.id r =? review_id)
                                   (ReviewModel.set_is_active false)
                                   (reviews db)) db) ;;;
      commit ;;;
      avg_rating <- query (avg_active_grade (ReviewModel.product_id review)) ;;
      let avg_rating := match avg_rating with
                        | None => Some 0%Q
                        | Some a => Some a
                        end in
      update_rating (ReviewModel.product_id review) avg_rating ;;;
      commit ;;;
      ret "Review marked as inactive"
  end.

(** ** The service as a transition system *)

Inductive Request :=
| POST_categories (category : CategoryCreate.t)
| PUT_categories (category_id : Z) (category : CategoryCreate.t)
| DELETE_categories (category_id : Z)
| POST_products (product : ProductCreate.t) (current_user : UserModel.t)
| PUT_products (product_id : Z) (product_update : ProductCreate.t)
               (current_user : UserModel.t)
| DELETE_products (product_id : Z) (current_user : UserModel.t)
| POST_reviews (review : ReviewCreate.t) (current_buyer : UserModel.t)
               (now : Z)
| DELETE_reviews (review_id : Z).

(** The store after a request has been served. *)
Definition step (db : DB) (rq : Request) : DB :=
  match rq with
  | POST_categories c => snd (serve (create_category c) db)
  | PUT_categories i c => snd (serve (update_category i c) db)
  | DELETE_categories i => snd (serve (delete_category i) db)
  | POST_products p u => snd (serve (create_product p u) db)
  | PUT_products i p u => snd (serve (update_product i p u) db)
  | DELETE_products i u => snd (serve (delete_product i u) db)
  | POST_reviews r u now => snd (serve (create_review r u now) db)
  | DELETE_reviews i => snd (serve (delete_review i) db)
  end.

(** The stores the service can be in: it starts empty and changes only by
    serving requests. *)
Inductive reachable : DB -> Prop :=
| reachable_empty : reachable empty_db
| reachable_step db rq : reachable db -> reachable (step db rq).

Definition run (rqs : list Request) : DB := fold_left step rqs empty_db.

(** ** Vocabulary of the specification *)

(** The grades of the active reviews of a product. *)
Definition active_grades (product_id : Z) (db : DB) : list Z :=
  map ReviewModel.grade
    (filter (fun r => ReviewModel.is_active r
                      && (ReviewModel.product_id r =? product_id))
            (reviews db)).

(** The average of a non-empty list of grades. *)
Definition mean (xs : list Z) : Q :=
  (inject_Z (fold_right Z.add 0%Z xs) / inject_Z (Z.of_nat (length xs)))%Q.

(** [r] is [x] rounded to two decimal places: a whole number of hundredths
    at most half a hundredth away from [x]. *)
Definition rounded_to_2_places (r x : Q) : Prop :=
  (exists k : Z, r == k # 100)%Q /\ (Qabs (r - x) <= 1 # 200)%Q.

(** No category is its own parent. *)
Definition no_self_parent (db : DB) : Prop :=
  forall c, In c (categories db) ->
            CategoryModel.parent_id c <> Some (CategoryModel.id c).

(** [c] is an active immediate child of the category [category_id]. *)
Definition active_child_of (category_id : Z) (c : CategoryModel.t) : Prop :=
  CategoryModel.parent_id c = Some category_id
  /\ CategoryModel.is_active c = true.

(** The category of [p] is [category_id] or one of its active immediate
    children. *)
Definition in_category_or_child (db : DB) (category_id : Z)
  (p : ProductModel.t) : Prop :=
  ProductModel.category_id p = category_id
  \/ exists c, In c (categories db) /\ active_child_of category_id c
               /\ ProductModel.category_id p = CategoryModel.id c.

(** Primary keys are unique. *)
Definition unique_ids (db : DB) : Prop :=
  NoDup (map CategoryModel.id (categories db))
  /\ NoDup (map ProductModel.id (products db))
  /\ NoDup (map ReviewModel.id (reviews db)).

(** ** Scenarios *)

Module Scenario.
Definition S1 : UserModel.t := UserModel.mk 1 UserModel.seller.
Definition S2 : UserModel.t := UserModel.mk 2 UserModel.seller.
Definition buyer1 : UserModel.t := UserModel.mk 3 UserModel.buyer.

Definition A : CategoryCreate.t := CategoryCreate.mk "A" Unset.
Definition B : CategoryCreate.t :=
  CategoryCreate.mk "B" (Provided (Some 1)).
Definition A_under_itself : CategoryCreate.t :=
  CategoryCreate.mk "A" (Provided (Some 1)).
Definition orphan : CategoryCreate.t :=
  CategoryCreate.mk "C" (Provided (Some 7)).

Definition P : ProductCreate.t :=
  ProductCreate.mk "P" Unset 10%Q Unset 3 (Provided (Some 1)).
Definition P_in_B : ProductCreate.t :=
  ProductCreate.mk "Q" Unset 5%Q Unset 1 (Provided (Some 2)).
Definition P_renamed : ProductCreate.t :=
  ProductCreate.mk "P2" Unset 12%Q Unset 3 Unset.

Definition R (grade : Z) : ReviewCreate.t := ReviewCreate.mk 1 "ok" grade.

(** Category A, then its child B. *)
Definition two_categories : DB :=
  run [POST_categories A; POST_categories B].

(** Category A created, then deactivated. *)
Definition A_deactivated : DB :=
  run [POST_categories A; DELETE_categories 1].

(** A product of seller S1 in A and another in B. *)
Definition shop : DB :=
  run [POST_categories A; POST_categories B;
       POST_products P S1; POST_products P_in_B S1].

(** The shop after category A has been deactivated. *)
Definition shop_without_A : DB := step shop (DELETE_categories 1).

(** The product of S1 in A, deactivated by its seller. *)
Definition P_deactivated : DB :=
  run [POST_categories A; POST_categories B;
       POST_products P S1; POST_products P_in_B S1;
       DELETE_products 1 S1].

(** Two reviews of P, graded 4 and 2. *)
Definition reviewed : DB :=
  run [POST_categories A; POST_categories B;
       POST_products P S1; POST_products P_in_B S1;
       POST_reviews (R 4) buyer1 100; POST_reviews (R 2) buyer1 101].

(** One review of P, graded 5. *)
Definition reviewed_once : DB :=
  run [POST_categories A; POST_categories B;
       POST_products P S1; POST_products P_in_B S1;
       POST_reviews (R 5) buyer1 100].
End Scenario.

(** ** Invariants of the store *)

(** Every stored grade satisfies [check_grade_range]. *)
Definition grades_in_range (db : DB) : Prop :=
  forall r, In r (reviews db) -> 1 <= ReviewModel.grade r <= 5.

(** Every foreign key into the three tables names an existing row. *)
Definition references_resolve (db : DB) : Prop :=
  (forall c x, In c (categories db) -> CategoryModel.parent_id c = Some x ->
               In x (map CategoryModel.id (categories db)))
  /\ (forall p, In p (products db) ->
                In (ProductModel.category_id p)
                   (map CategoryModel.id (categories db)))
  /\ (forall r, In r (reviews db) ->
                In (ReviewModel.product_id r)
                   (map ProductModel.id (products db))).

(** The rating a product should carry: 0 without active reviews, else the
    rounded average of their grades. *)
Definition expected_rating (product_id : Z) (db : DB) : Q :=
  match active_grades product_id db with
  | [] => 0%Q
  | gs => func_round (mean gs) 2
  end.

Definition ratings_consistent (db : DB) : Prop :=
  forall p, In p (products db) ->
            ProductModel.rating p = expected_rating (ProductModel.id p) db.

(** [ids'] keeps every id of [ids], in place, and may add some. *)
Definition extends (ids ids' : list Z) : Prop :=
  exists added, ids' = (ids ++ added)%list.

(** ** Answers *)

Definition failure {A} (r : Failure + A) : option Failure :=
  match r with
  | inl e => Some e
  | inr _ => None
  end.

(** The failure a request is answered with, if any. *)
Definition answer (db : DB) (rq : Request) : option Failure :=
  match rq with
  | POST_categories c => failure (fst (serve (create_category c) db))
  | PUT_categories i c => failure (fst (serve (update_category i c) db))
  | DELETE_categories i => failure (fst (serve (delete_category i) db))
  | POST_products p u => failure (fst (serve (create_product p u) db))
  | PUT_products i p u => failure (fst (serve (update_product i p u) db))
  | DELETE_products i u => failure (fst (serve (delete_product i u) db))
  | POST_reviews r u now => failure (fst (serve (create_review r u now) db))
  | DELETE_reviews i => failure (fst (serve (delete_review i) db))
  end.

(** ** [app/main.py] *)

Inductive Level := INFO | WARNING | ERROR.

(** The status the route decorator declares for a successful answer. *)
Definition success_status (rq : Request) : Z :=
  match rq with
  | POST_categories _ | POST_products _ _ | POST_reviews _ _ _ => 201
  | _ => 200
  end.

(** What [call_next] gives the middleware: the response's status code, or
    the exception that escaped the handler.  An [HTTPException] is turned
    into a response with its status code before the middleware sees it. *)
Definition call_next (db : DB) (rq : Request) : string + Z :=
  match answer db rq with
  | None => inr (success_status rq)
  | Some (HTTPException status_code _) => inr status_code
  | Some (Unhandled exc) => inl exc
  end.

(** [log_middleware]: the level it logs at and the status code of the
    response it returns. *)
Definition log_middleware (next : string + Z) : Level * Z :=
  match next with
  | inr status_code =>
      if existsb (Z.eqb status_code) [401; 402; 403; 404]
      then (WARNING, status_code)
      else (INFO, status_code)
  | inl _ => (ERROR, 500)
  end.

(** ** Further scenarios *)

Module Examples.
Definition C : CategoryCreate.t := CategoryCreate.mk "C" Unset.
Definition C_under_A : CategoryCreate.t :=
  CategoryCreate.mk "C" (Provided (Some 1)).
Definition A_under_B : CategoryCreate.t :=
  CategoryCreate.mk "A" (Provided (Some 2)).
Definition A_renamed : CategoryCreate.t := CategoryCreate.mk "A2" Unset.

(** Categories A and C without parents, A deactivated. *)
Definition C_beside_deactivated_A : DB :=
  run [POST_categories Scenario.A; POST_categories C; DELETE_categories 1].

(** The shop after seller S1 has deactivated the product P. *)
Definition shop_without_P : DB :=
  step Scenario.shop (DELETE_products 1 Scenario.S1).

(** The shop after S1 has renamed and repriced P. *)
Definition shop_with_P_renamed : DB :=
  step Scenario.shop (PUT_products 1 Scenario.P_renamed Scenario.S1).

(** The shop after category A has been renamed. *)
Definition shop_with_A_renamed : DB :=
  step Scenario.shop (PUT_categories 1 A_renamed).

(** The shop after a first review of P, graded 4. *)
Definition shop_reviewed : DB :=
  step Scenario.shop (POST_reviews (Scenario.R 4) Scenario.buyer1 100).

(** The reviews graded 4 and 2, the first one deactivated. *)
Definition reviewed_without_first : DB :=
  step Scenario.reviewed (DELETE_reviews 1).
End Examples.

(** * Properties *)

(** ** The SQL functions *)

Lemma func_round_compat (x y : Q) (n : Z) :
  (x == y)%Q -> func_round x n = func_round y n.
Proof.
  intros E. unfold func_round. apply Qred_complete.
  assert (B : Qle_bool 0 x = Qle_bool 0 y).
  { destruct (Qle_bool 0 x) eqn:Hx, (Qle_bool 0 y) eqn:Hy; trivial.
    - apply Qle_bool_iff in Hx. rewrite E in Hx.
      apply Qle_bool_iff in Hx. congruence.
    - apply Qle_bool_iff in Hy. rewrite <- E in Hy.
      apply Qle_bool_iff in Hy. congruence. }
  rewrite B. destruct (Qle_bool 0 y).
  - now rewrite E.
  - now rewrite E.
Qed.

Lemma nearest_hundredth (y : Q) :
  let k := Qfloor (y * inject_Z 100 + (1 # 2))%Q in
  (- (1 # 200) <= inject_Z k / inject_Z 100 - y <= 1 # 200)%Q.
Proof.
  intros k.
  pose proof (Qfloor_le (y * inject_Z 100 + (1 # 2))) as L.
  pose proof (Qlt_floor (y * inject_Z 100 + (1 # 2))) as U.
  fold k in L, U. rewrite inject_Z_plus in U.
  change (inject_Z 100) with 100%Q in *. change (inject_Z 1) with 1%Q in U.
  unfold Qdiv. change (/ 100)%Q with (1 # 100)%Q.
  split; lra.
Qed.

Lemma func_round_2_places (x : Q) : rounded_to_2_places (func_round x 2) x.
Proof.
  unfold rounded_to_2_places, func_round.
  change (10 ^ 2) with 100.
  destruct (Qle_bool 0 x) eqn:S.
  - split.
    + eexists. rewrite Qred_correct. symmetry. apply Qmake_Qdiv.
    + rewrite Qred_correct. apply Qabs_Qle_condition.
      apply nearest_hundredth.
  - split.
    + exists (- Qfloor (- x * inject_Z 100 + (1 # 2))).
      rewrite Qred_correct, (Qmake_Qdiv (- _) 100), inject_Z_opp.
      unfold Qdiv. ring.
    + rewrite Qred_correct. apply Qabs_Qle_condition.
      pose proof (nearest_hundredth (- x)) as N. cbv zeta in N.
      split; lra.
Qed.

Lemma func_round_zero : func_round 0 2 = 0%Q.
Proof. reflexivity. Qed.

Lemma func_avg_mean (xs : list Z) (a : Q) :
  func_avg xs = Some a -> xs <> [] /\ (a == mean xs)%Q.
Proof.
  destruct xs as [|x xs]; [discriminate|].
  intros H. split; [discriminate|].
  assert (E : a = Qred (mean (x :: xs))) by (unfold func_avg in H; unfold mean; congruence).
  rewrite E. apply Qred_correct.
Qed.

Lemma func_avg_nonempty (xs : list Z) :
  xs <> [] -> exists a, func_avg xs = Some a.
Proof. destruct xs; [congruence|]. intros _. eexists. reflexivity. Qed.

(** ** Queries over a table *)

Section Tables.
Context {R : Type}.
Implicit Types (p : R -> bool) (table : list R).

Lemma scalar_none p table :
  scalar (select_where p table) = None <->
  (forall r, In r table -> p r = false).
Proof.
  unfold scalar, select_where. induction table as [|x l IH]; simpl.
  - split; [intros _ r []|reflexivity].
  - destruct (p x) eqn:Px; simpl.
    + split; [discriminate|]. intros H.
      specialize (H x (or_introl eq_refl)). congruence.
    + rewrite IH. split.
      * intros H r [<-|Hr]; auto.
      * intros H r Hr. apply H. now right.
Qed.

Lemma scalar_some p table r :
  scalar (select_where p table) = Some r -> In r table /\ p r = true.
Proof.
  unfold scalar, select_where. intros H.
  apply filter_In. destruct (filter p table); simpl in H; [discriminate|].
  injection H as ->. now left.
Qed.

Lemma scalar_found p table r :
  In r table -> p r = true -> exists r', scalar (select_where p table) = Some r'.
Proof.
  intros Hr Pr. destruct (scalar (select_where p table)) as [r'|] eqn:E.
  - now exists r'.
  - rewrite scalar_none in E. rewrite (E r Hr) in Pr. discriminate.
Qed.

Lemma update_where_length p f table :
  length (update_where p f table) = length table.
Proof. apply length_map. Qed.

Lemma update_where_nth p f table i r :
  nth_error table i = Some r ->
  nth_error (update_where p f table) i = Some (if p r then f r else r).
Proof.
  intros H. unfold update_where. now rewrite nth_error_map, H.
Qed.

Lemma update_where_In p f table r' :
  In r' (update_where p f table) ->
  exists r, In r table /\ r' = (if p r then f r else r).
Proof.
  unfold update_where. rewrite in_map_iff. intros (r & E & Hr). eauto.
Qed.

(** With unique keys, rows with the same key are the same row. *)
Lemma unique_key (key : R -> Z) table r r' :
  NoDup (map key table) -> In r table -> In r' table -> key r = key r' ->
  r = r'.
Proof.
  intros ND Hr Hr' K. induction table as [|x l IH]; [easy|].
  simpl in ND. inversion ND as [|? ? Hx ND']; subst.
  destruct Hr as [->|Hr], Hr' as [->|Hr']; trivial.
  - exfalso. apply Hx. rewrite K. now apply in_map.
  - exfalso. apply Hx. rewrite <- K. now apply in_map.
  - auto.
Qed.

(** A selection by key finds the row that has the key, if it passes. *)
Lemma scalar_unique (key : R -> Z) p table r :
  NoDup (map key table) -> In r table -> p r = true ->
  (forall x, p x = true -> key x = key r) ->
  scalar (select_where p table) = Some r.
Proof.
  intros ND Hr Pr Hp.
  destruct (scalar_found p table r Hr Pr) as [r' E].
  rewrite E. f_equal. apply scalar_some in E as [Hr' P].
  apply (unique_key key table); auto.
Qed.

(** A selection by key finds nothing if the row that has the key fails. *)
Lemma scalar_unique_none (key : R -> Z) p table r :
  NoDup (map key table) -> In r table -> p r = false ->
  (forall x, p x = true -> key x = key r) ->
  scalar (select_where p table) = None.
Proof.
  intros ND Hr Pr Hp. apply scalar_none. intros x Hx.
  destruct (p x) eqn:Px; trivial.
  rewrite (unique_key key table x r ND Hx Hr (Hp x Px)) in Px. congruence.
Qed.
End Tables.

Lemma next_id_fresh (ids : list Z) (i : Z) : In i ids -> i < next_id ids.
Proof.
  unfold next_id. induction ids as [|x l IH]; cbn [fold_right In]; [easy|].
  intros [->|H]; [lia|]. specialize (IH H). lia.
Qed.

Lemma next_id_not_in (ids : list Z) : ~ In (next_id ids) ids.
Proof. intros H. apply next_id_fresh in H. lia. Qed.

(** ** Running a handler

    What each handler answers and commits, by cases on what it reads. *)

Ltac session :=
  unfold serve, bind, ret, raise, query, execute, commit, rollback in *.

Ltac tidy :=
  cbn beta iota zeta
      delta [committed pending fst snd categories products reviews
             with_categories with_products with_reviews] in *.

(** Case analysis on the innermost scrutinee, until no branch is left. *)
Ltac branches :=
  tidy;
  repeat match goal with
         | |- context [match ?x with _ => _ end] =>
             lazymatch x with
             | context [match _ with _ => _ end] => fail
             | _ => destruct x eqn:?; tidy
             end
         end.

Ltac run_handler := session; branches; try reflexivity; try congruence.

Lemma serve_create_category db category :
  let db_category :=
    CategoryModel.mk (next_id (map CategoryModel.id (categories db)))
                     (CategoryCreate.name category)
                     (value (CategoryCreate.parent_id category)) true in
  let created :=
    (inr db_category, with_categories (categories db ++ [db_category]) db) in
  serve (create_category category) db =
  match value (CategoryCreate.parent_id category) with
  | Some parent_id =>
      match scalar (select_where (active_category_by_id parent_id)
                                 (categories db)) with
      | None => (inl (HTTPException 400 "Parent category not found"), db)
      | Some _ => created
      end
  | None => created
  end.
Proof. unfold create_category, add_category. run_handler. Qed.

Lemma serve_update_category db category_id category :
  serve (update_category category_id category) db =
  match scalar (select_where (active_category_by_id category_id)
                             (categories db)) with
  | None => (inl (HTTPException 404 "Category not found"), db)
  | Some db_category =>
      let updated :=
        (inr (category_values category db_category),
         with_categories (update_where (category_by_id category_id)
                                       (category_values category)
                                       (categories db)) db) in
      match value (CategoryCreate.parent_id category) with
      | Some parent_id =>
          match scalar (select_where (category_by_id parent_id)
                                     (categories db)) with
          | None => (inl (HTTPException 404 "Parent category not found"), db)
          | Some parent =>
              if CategoryModel.id parent =? category_id
              then (inl (HTTPException 400
                                       "Category cannot be its own parent"),
                    db)
              else updated
          end
      | None => updated
      end
  end.
Proof. unfold update_category. run_handler. Qed.

Lemma serve_delete_category db category_id :
  serve (delete_category category_id) db =
  match scalar (select_where (active_category_by_id category_id)
                             (categories db)) with
  | None => (inl (HTTPException 404 "Category not found"), db)
  | Some _ =>
      (inr ("success",
            "Category with ID " ++ str category_id ++ " marked as inactive"),
       with_categories (update_where (category_by_id category_id)
                                     (CategoryModel.set_is_active false)
                                     (categories db)) db)
  end.
Proof. unfold delete_category. run_handler. Qed.

Lemma serve_get_all_products db :
  serve get_all_products db =
  (inr (filter ProductModel.is_active (products db)), db).
Proof. reflexivity. Qed.

Lemma serve_get_products_by_category db category_id :
  serve (get_products_by_category category_id) db =
  match scalar (select_where (active_category_by_id category_id)
                             (categories db)) with
  | None => (inl (HTTPException 404 "Category not found"), db)
  | Some _ =>
      let child_ids :=
        map CategoryModel.id
          (filter (fun c =>
                     match CategoryModel.parent_id c with
                     | Some parent_id => parent_id =? category_id
                     | None => false
                     end && CategoryModel.is_active c)
                  (categories db)) in
      (inr (filter (fun p => existsb (Z.eqb (ProductModel.category_id p))
                                     (category_id :: child_ids))
                   (products db)),
       db)
  end.
Proof.
  unfold get_products_by_category, all. session. tidy.
  destruct (scalar _); reflexivity.
Qed.

Lemma serve_get_product db product_id :
  serve (get_product product_id) db =
  match scalar (select_where (active_product_by_id product_id)
                             (products db)) with
  | None => (inl (HTTPException 404 "Product not found"), db)
  | Some product => (inr product, db)
  end.
Proof. unfold get_product. run_handler. Qed.

Lemma serve_update_product db product_id product_update current_user :
  serve (update_product product_id product_update current_user) db =
  match scalar (select_where (product_by_id product_id) (products db)) with
  | None => (inl (HTTPException 404 "Product not found"), db)
  | Some product =>
      if ProductModel.seller_id product =? UserModel.id current_user
      then
        let updated :=
          (inr (product_values product_update product),
           with_products (update_where (product_by_id product_id)
                                       (product_values product_update)
                                       (products db)) db) in
        match ProductCreate.category_id product_update with
        | Provided (Some category_id) =>
            match scalar (select_where (active_category_by_id category_id)
                                       (categories db)) with
            | None => (inl (HTTPException 404 "Category not found"), db)
            | Some _ => updated
            end
        | Provided None => (inl (Unhandled "IntegrityError"), db)
        | Unset => updated
        end
      else (inl (HTTPException 403 "You can only update your products"), db)
  end.
Proof.
  unfold update_product, execute_product_update. session. tidy.
  destruct (scalar _) as [product|]; [|reflexivity]. tidy.
  destruct (_ =? _); [|reflexivity]. cbn [negb].
  destruct (ProductCreate.category_id product_update) as [|[c|]];
    cbn [value]; tidy; try reflexivity.
  destruct (scalar _); reflexivity.
Qed.

Lemma serve_delete_product db product_id current_user :
  serve (delete_product product_id current_user) db =
  match scalar (select_where (active_product_by_id product_id)
                             (products db)) with
  | None => (inl (HTTPException 404 "Product not found"), db)
  | Some product =>
      if ProductModel.seller_id product =? UserModel.id current_user
      then (inr ("success", "Product marked as inactive"),
            with_products (update_where (product_by_id product_id)
                                        (ProductModel.set_is_active false)
                                        (products db)) db)
      else (inl (HTTPException 403 "You can only delete your products"), db)
  end.
Proof.
  unfold delete_product. session. tidy.
  destruct (scalar _) as [product|]; [|reflexivity]. tidy.
  destruct (_ =? _); reflexivity.
Qed.

Lemma serve_create_product db product current_user :
  serve (create_product product current_user) db =
  match value (ProductCreate.category_id product) with
  | Some category_id =>
      match scalar (select_where (active_category_by_id category_id)
                                 (categories db)) with
      | None => (inl (HTTPException 404 "Category not found"), db)
      | Some _ =>
          let db_product :=
            ProductModel.mk (next_id (map ProductModel.id (products db)))
              (ProductCreate.name product)
              (value (ProductCreate.description product))
              (ProductCreate.price product)
              (value (ProductCreate.image_url product))
              (ProductCreate.stock product)
              true 0%Q category_id (UserModel.id current_user) in
          (inr db_product, with_products (products db ++ [db_product]) db)
      end
  | None => (inl (Unhandled "IntegrityError"), db)
  end.
Proof. unfold create_product, add_product. run_handler. Qed.

Lemma serve_create_review db review current_buyer now :
  let product_id := ReviewCreate.product_id review in
  let db_review :=
    ReviewModel.mk (next_id (map ReviewModel.id (reviews db)))
                   (UserModel.id current_buyer) product_id
                   (ReviewCreate.comment review) now
                   (ReviewCreate.grade review) true in
  let db1 := with_reviews (reviews db ++ [db_review]) db in
  serve (create_review review current_buyer now) db =
  match scalar (select_where (active_product_by_id product_id)
                             (products db)) with
  | None =>
      (inl (HTTPException 404 ("Product with id " ++ str product_id
                               ++ " does not exist.")), db)
  | Some _ =>
      if ReviewModel.check_grade_range db_review
      then
        match avg_active_grade product_id db1 with
        | None => (inl (Unhandled "IntegrityError"), db1)
        | Some avg_rating =>
            (inr db_review,
             with_products
               (update_where (product_by_id product_id)
                  (ProductModel.set_rating (func_round avg_rating 2))
                  (products db)) db1)
        end
      else (inl (HTTPException 400 "Integrity Error: check_grade_range"), db)
  end.
Proof.
  intros product_id db_review db1.
  unfold create_review, add_review, commit_review, update_rating.
  fold product_id. session. tidy.
  destruct (scalar _); [|reflexivity]. tidy. fold db_review.
  destruct (ReviewModel.check_grade_range db_review); [|reflexivity]. tidy.
  fold db1. destruct (avg_active_grade product_id db1); reflexivity.
Qed.

Lemma serve_delete_review db review_id :
  serve (delete_review review_id) db =
  match scalar (select_where (active_review_by_id review_id)
                             (reviews db)) with
  | None =>
      (inl (HTTPException 404 ("Review with id " ++ str review_id
                               ++ " does not exist.")), db)
  | Some review =>
      let db1 :=
        with_reviews (update_where (fun r => ReviewModel.id r =? review_id)
                                   (ReviewModel.set_is_active false)
                                   (reviews db)) db in
      let avg_rating :=
        match avg_active_grade (ReviewModel.product_id review) db1 with
        | None => 0%Q
        | Some a => a
        end in
      (inr "Review marked as inactive",
       with_products
         (update_where (product_by_id (ReviewModel.product_id review))
            (ProductModel.set_rating (func_round avg_rating 2))
            (products db)) db1)
  end.
Proof.
  unfold delete_review, update_rating. session. tidy.
  destruct (scalar _) as [review|]; [|reflexivity]. tidy.
  destruct (avg_active_grade _ _); reflexivity.
Qed.

(** ** Categories *)

Lemma other_requests_keep_categories db rq :
  match rq with
  | POST_categories _ | PUT_categories _ _ | DELETE_categories _ => True
  | _ => categories (step db rq) = categories db
  end.
Proof.
  destruct rq; trivial; unfold step.
  - rewrite serve_create_product. branches; reflexivity.
  - rewrite serve_update_product. branches; reflexivity.
  - rewrite serve_delete_product. branches; reflexivity.
  - rewrite serve_create_review. branches; reflexivity.
  - rewrite serve_delete_review. branches; reflexivity.
Qed.

Lemma create_category_no_self_parent db category :
  no_self_parent db -> no_self_parent (step db (POST_categories category)).
Proof.
  intros I. unfold step. rewrite serve_create_category.
  set (new := CategoryModel.mk _ _ _ _).
  assert (W : (forall x, value (CategoryCreate.parent_id category) = Some x ->
                         In x (map CategoryModel.id (categories db))) ->
              no_self_parent (with_categories (categories db ++ [new]) db)).
  { intros G c Hc. cbn [categories with_categories] in Hc.
    apply in_app_or in Hc as [Hc|[<-|[]]]; [now apply I|].
    cbn [new CategoryModel.parent_id CategoryModel.id]. intros E.
    apply (next_id_not_in (map CategoryModel.id (categories db))).
    now apply G. }
  destruct (value (CategoryCreate.parent_id category)) as [parent_id|].
  - destruct (scalar _) as [parent|] eqn:E; cbn [snd]; trivial.
    apply W. intros x [= <-]. apply scalar_some in E as [Hin P].
    apply andb_prop in P as [K _]. apply Z.eqb_eq in K.
    rewrite <- K. now apply in_map.
  - apply W. discriminate.
Qed.

Lemma update_category_no_self_parent db category_id category :
  no_self_parent db ->
  no_self_parent (step db (PUT_categories category_id category)).
Proof.
  intros I. unfold step. rewrite serve_update_category.
  destruct (scalar _) as [db_category|]; cbn [snd]; trivial.
  assert (W : value (CategoryCreate.parent_id category) <> Some category_id ->
    no_self_parent
      (with_categories
         (update_where (category_by_id category_id)
                       (category_values category) (categories db)) db)).
  { intros G c Hc. cbn [categories with_categories] in Hc.
    apply update_where_In in Hc as (c0 & Hc0 & ->).
    unfold category_by_id.
    destruct (CategoryModel.id c0 =? category_id) eqn:K; [|now apply I].
    apply Z.eqb_eq in K. unfold category_values.
    destruct (CategoryCreate.parent_id category) as [|v];
      cbn [CategoryModel.set_name CategoryModel.set_parent_id
           CategoryModel.parent_id CategoryModel.id value] in *.
    - now apply I.
    - now rewrite K. }
  cbv zeta.
  destruct (value (CategoryCreate.parent_id category)) as [parent_id|].
  - destruct (scalar _) as [parent|] eqn:P; cbn [snd]; trivial.
    apply scalar_some in P as [_ P]. unfold category_by_id in P.
    apply Z.eqb_eq in P. rewrite P.
    destruct (parent_id =? category_id) eqn:X; cbn [snd]; trivial.
    apply W. apply Z.eqb_neq in X. congruence.
  - apply W. discriminate.
Qed.

Lemma delete_category_no_self_parent db category_id :
  no_self_parent db -> no_self_parent (step db (DELETE_categories category_id)).
Proof.
  intros I. unfold step. rewrite serve_delete_category.
  destruct (scalar _) as [category|]; cbn [snd]; trivial.
  intros c Hc. cbn [categories with_categories] in Hc.
  apply update_where_In in Hc as (c0 & Hc0 & ->).
  destruct (category_by_id category_id c0); [|now apply I].
  cbn [CategoryModel.set_is_active CategoryModel.parent_id CategoryModel.id].
  now apply I.
Qed.

Lemma reachable_no_self_parent db : reachable db -> no_self_parent db.
Proof.
  induction 1 as [|db rq _ IH].
  - intros c [].
  - pose proof (other_requests_keep_categories db rq) as K.
    destruct rq;
      try (unfold no_self_parent; rewrite K; exact IH).
    + now apply create_category_no_self_parent.
    + now apply update_category_no_self_parent.
    + now apply delete_category_no_self_parent.
Qed.

Lemma run_reachable rqs : reachable (run rqs).
Proof.
  unfold run. generalize empty_db, reachable_empty.
  induction rqs as [|rq rqs IH]; intros db H; simpl; [exact H|].
  apply IH. now constructor.
Qed.

(** C4: on a category that is active, [update_category] with [parent_id]
    equal to the category's own id fails with 400 "Category cannot be its own
    parent" and leaves the store as it was; on a category that is not active
    (no active category has the id; with unique ids, the category with that
    id is deactivated) every update, this one included, fails with 404
    "Category not found" and leaves the store as it was; and in every store
    the service can reach, no category has its own id as [parent_id]. *)
Theorem no_category_is_its_own_parent :
  (forall db category_id category c,
      In c (categories db) ->
      CategoryModel.id c = category_id ->
      CategoryModel.is_active c = true ->
      value (CategoryCreate.parent_id category) = Some category_id ->
      serve (update_category category_id category) db =
      (inl (HTTPException 400 "Category cannot be its own parent"), db))
  /\ (forall db category_id category,
         (forall c, In c (categories db) ->
                    CategoryModel.id c = category_id ->
                    CategoryModel.is_active c = false) ->
         serve (update_category category_id category) db =
         (inl (HTTPException 404 "Category not found"), db))
  /\ (forall db category_id category c,
         NoDup (map CategoryModel.id (categories db)) ->
         In c (categories db) ->
         CategoryModel.id c = category_id ->
         CategoryModel.is_active c = false ->
         serve (update_category category_id category) db =
         (inl (HTTPException 404 "Category not found"), db))
  /\ (forall db, reachable db -> no_self_parent db).
Proof.
  assert (Off : forall db category_id category,
    (forall c, In c (categories db) ->
               CategoryModel.id c = category_id ->
               CategoryModel.is_active c = false) ->
    serve (update_category category_id category) db =
    (inl (HTTPException 404 "Category not found"), db)).
  { intros db category_id category None_active.
    rewrite serve_update_category.
    destruct (scalar _) as [found|] eqn:E; [|reflexivity].
    apply scalar_some in E as [Hin P].
    apply andb_prop in P as [K Act]. apply Z.eqb_eq in K.
    rewrite (None_active found Hin K) in Act. discriminate. }
  split; [|split; [exact Off|split; [|exact reachable_no_self_parent]]].
  - intros db category_id category c Hc Hid Hact Hp.
    rewrite serve_update_category.
    destruct (scalar_found (active_category_by_id category_id) _ c Hc)
      as [db_category ->].
    { unfold active_category_by_id. now rewrite Hid, Hact, Z.eqb_refl. }
    cbv zeta. rewrite Hp.
    destruct (scalar_found (category_by_id category_id) _ c Hc) as [parent E].
    { unfold category_by_id. now rewrite Hid, Z.eqb_refl. }
    rewrite E. apply scalar_some in E as [_ E]. unfold category_by_id in E.
    now rewrite E.
  - intros db category_id category c ND Hc Hid Hoff. apply Off.
    intros c' Hc' Hid'.
    assert (c' = c) as ->
      by (apply (unique_key CategoryModel.id (categories db)); congruence).
    exact Hoff.
Qed.

Lemma no_category_is_its_own_parent_witness :
  serve (update_category 1 Scenario.A_under_itself) Scenario.two_categories =
  (inl (HTTPException 400 "Category cannot be its own parent"),
   Scenario.two_categories)
  /\ serve (update_category 7 Scenario.A_under_itself)
           Scenario.two_categories =
     (inl (HTTPException 404 "Category not found"), Scenario.two_categories)
  /\ serve (update_category 1 Scenario.A_under_itself)
           Scenario.A_deactivated =
     (inl (HTTPException 404 "Category not found"), Scenario.A_deactivated)
  /\ no_self_parent Scenario.two_categories.
Proof.
  destruct no_category_is_its_own_parent as (Self & Missing & Off & Inv).
  split; [|split; [|split]].
  - apply (Self Scenario.two_categories 1 Scenario.A_under_itself
             (CategoryModel.mk 1 "A" None true)).
    + vm_compute. now left.
    + reflexivity.
    + reflexivity.
    + reflexivity.
  - apply Missing. intros c Hc Hid. vm_compute in Hc.
    destruct Hc as [<-|[<-|[]]]; vm_compute in Hid; discriminate.
  - apply (Off Scenario.A_deactivated 1 Scenario.A_under_itself
             (CategoryModel.mk 1 "A" None false)).
    + vm_compute. repeat constructor; simpl; intuition discriminate.
    + vm_compute. now left.
    + reflexivity.
    + reflexivity.
  - apply Inv. apply run_reachable.
Defined.

(** C4, as stated, fails on a deactivated category: setting it as its own
    parent is answered 404 "Category not found", not 400. *)
Lemma update_deactivated_category_not_found :
  reachable Scenario.A_deactivated
  /\ In (CategoryModel.mk 1 "A" None false)
        (categories Scenario.A_deactivated)
  /\ value (CategoryCreate.parent_id Scenario.A_under_itself) = Some 1
  /\ serve (update_category 1 Scenario.A_under_itself) Scenario.A_deactivated
     = (inl (HTTPException 404 "Category not found"), Scenario.A_deactivated)
  /\ serve (update_category 1 Scenario.A_under_itself) Scenario.A_deactivated
     <> (inl (HTTPException 400 "Category cannot be its own parent"),
         Scenario.A_deactivated).
Proof.
  split; [apply run_reachable|].
  split; [vm_compute; now left|].
  split; [reflexivity|].
  split; [reflexivity|].
  vm_compute. discriminate.
Qed.

(** C5: when [create_category] is given a [parent_id], it fails with 400
    "Parent category not found" and creates nothing if no active category
    has that id; otherwise it adds and returns a new active category with a
    fresh id, the given name and the given parent. *)
Theorem create_category_checks_parent db category parent_id :
  value (CategoryCreate.parent_id category) = Some parent_id ->
  ((forall c, In c (categories db) -> CategoryModel.id c = parent_id ->
              CategoryModel.is_active c = false) ->
   serve (create_category category) db =
   (inl (HTTPException 400 "Parent category not found"), db))
  /\
  ((exists c, In c (categories db) /\ CategoryModel.id c = parent_id
              /\ CategoryModel.is_active c = true) ->
   exists new,
     serve (create_category category) db =
     (inr new, with_categories (categories db ++ [new]) db)
     /\ CategoryModel.is_active new = true
     /\ CategoryModel.name new = CategoryCreate.name category
     /\ CategoryModel.parent_id new = Some parent_id
     /\ ~ In (CategoryModel.id new) (map CategoryModel.id (categories db))).
Proof.
  intros Hp. rewrite serve_create_category. cbv zeta. rewrite Hp. split.
  - intros None_active.
    destruct (scalar _) as [parent|] eqn:E; [|reflexivity].
    apply scalar_some in E as [Hin P].
    apply andb_prop in P as [K Act]. apply Z.eqb_eq in K.
    rewrite (None_active parent Hin K) in Act. discriminate.
  - intros (c & Hc & Hid & Hact).
    destruct (scalar_found (active_category_by_id parent_id) _ c Hc)
      as [parent ->].
    { unfold active_category_by_id. now rewrite Hid, Hact, Z.eqb_refl. }
    eexists. split; [reflexivity|].
    cbn [CategoryModel.is_active CategoryModel.name CategoryModel.parent_id
         CategoryModel.id].
    repeat split. apply next_id_not_in.
Qed.

Lemma create_category_checks_parent_witness :
  serve (create_category Scenario.orphan) Scenario.two_categories =
  (inl (HTTPException 400 "Parent category not found"),
   Scenario.two_categories)
  /\ exists new,
       serve (create_category Scenario.B) Scenario.two_categories =
       (inr new,
        with_categories (categories Scenario.two_categories ++ [new])
                        Scenario.two_categories)
       /\ CategoryModel.is_active new = true
       /\ CategoryModel.name new = "B"
       /\ CategoryModel.parent_id new = Some 1
       /\ ~ In (CategoryModel.id new)
               (map CategoryModel.id (categories Scenario.two_categories)).
Proof.
  split.
  - apply (proj1 (create_category_checks_parent Scenario.two_categories
                    Scenario.orphan 7 eq_refl)).
    intros c Hc Hid. vm_compute in Hc.
    destruct Hc as [<-|[<-|[]]]; vm_compute in Hid; discriminate.
  - apply (proj2 (create_category_checks_parent Scenario.two_categories
                    Scenario.B 1 eq_refl)).
    exists (CategoryModel.mk 1 "A" None true).
    split; [vm_compute; now left|]. split; reflexivity.
Defined.

(** C6: a successful [delete_category] leaves the products and the reviews
    as they were, keeps every category row in its place, changes nothing in
    a row whose id is not the deleted one and only [is_active] (to false) in
    the deleted one; where no category is its own parent, every child of the
    deleted category is exactly as before. *)
Theorem delete_category_is_shallow db category_id out db' :
  serve (delete_category category_id) db = (inr out, db') ->
  products db' = products db
  /\ reviews db' = reviews db
  /\ length (categories db') = length (categories db)
  /\ (forall i c, nth_error (categories db) i = Some c ->
        nth_error (categories db') i =
        Some (if CategoryModel.id c =? category_id
              then CategoryModel.mk (CategoryModel.id c) (CategoryModel.name c)
                                    (CategoryModel.parent_id c) false
              else c))
  /\ (no_self_parent db ->
      forall i c, nth_error (categories db) i = Some c ->
        CategoryModel.parent_id c = Some category_id ->
        nth_error (categories db') i = Some c).
Proof.
  rewrite serve_delete_category.
  destruct (scalar _) as [category|]; [|discriminate].
  intros [= _ <-]. cbn [products reviews categories with_categories].
  split; [reflexivity|]. split; [reflexivity|].
  split; [apply update_where_length|].
  split.
  - intros i c Hi. now rewrite (update_where_nth _ _ _ _ _ Hi).
  - intros I i c Hi Hp. rewrite (update_where_nth _ _ _ _ _ Hi).
    unfold category_by_id.
    destruct (CategoryModel.id c =? category_id) eqn:K; [|reflexivity].
    apply Z.eqb_eq in K. exfalso.
    apply (I c); [now apply nth_error_In in Hi|]. now rewrite K.
Qed.

Lemma delete_category_is_shallow_witness :
  products Scenario.shop_without_A = products Scenario.shop
  /\ reviews Scenario.shop_without_A = reviews Scenario.shop
  /\ nth_error (categories Scenario.shop_without_A) 0 =
     Some (CategoryModel.mk 1 "A" None false)
  /\ nth_error (categories Scenario.shop_without_A) 1 =
     Some (CategoryModel.mk 2 "B" (Some 1) true).
Proof.
  destruct (delete_category_is_shallow Scenario.shop 1
              ("success", "Category with ID 1 marked as inactive")
              Scenario.shop_without_A eq_refl)
    as (Hp & Hr & _ & Hrow & Hchild).
  split; [exact Hp|]. split; [exact Hr|]. split.
  - apply (Hrow 0%nat (CategoryModel.mk 1 "A" None true)). reflexivity.
  - apply (Hchild (reachable_no_self_parent _ (run_reachable _)) 1%nat).
    + reflexivity.
    + reflexivity.
Defined.

(** ** Products *)

Lemma product_by_id_key product_id (p x : ProductModel.t) :
  ProductModel.id p = product_id ->
  product_by_id product_id x = true -> ProductModel.id x = ProductModel.id p.
Proof. unfold product_by_id. intros -> H. now apply Z.eqb_eq. Qed.

Lemma active_product_by_id_key product_id (p x : ProductModel.t) :
  ProductModel.id p = product_id ->
  active_product_by_id product_id x = true ->
  ProductModel.id x = ProductModel.id p.
Proof.
  unfold active_product_by_id. intros -> H.
  apply andb_prop in H as [H _]. now apply Z.eqb_eq.
Qed.

(** C7: where product ids are unique and the seller is not the one the
    product belongs to, [update_product] fails with 403 and [delete_product]
    fails with 403 if the product is active and with 404 if it is not; the
    store is left as it was each time. *)
Theorem only_the_seller_changes_a_product db product_id current_user p :
  NoDup (map ProductModel.id (products db)) ->
  In p (products db) ->
  ProductModel.id p = product_id ->
  ProductModel.seller_id p <> UserModel.id current_user ->
  (forall product_update,
      serve (update_product product_id product_update current_user) db =
      (inl (HTTPException 403 "You can only update your products"), db))
  /\ (ProductModel.is_active p = true ->
      serve (delete_product product_id current_user) db =
      (inl (HTTPException 403 "You can only delete your products"), db))
  /\ (ProductModel.is_active p = false ->
      serve (delete_product product_id current_user) db =
      (inl (HTTPException 404 "Product not found"), db)).
Proof.
  intros ND Hp Hid Hs. apply Z.eqb_neq in Hs. split; [|split].
  - intros product_update. rewrite serve_update_product.
    rewrite (scalar_unique ProductModel.id _ _ p ND Hp).
    + now rewrite Hs.
    + unfold product_by_id. now rewrite Hid, Z.eqb_refl.
    + intros x. now apply product_by_id_key.
  - intros Hact. rewrite serve_delete_product.
    rewrite (scalar_unique ProductModel.id _ _ p ND Hp).
    + now rewrite Hs.
    + unfold active_product_by_id. now rewrite Hid, Hact, Z.eqb_refl.
    + intros x. now apply active_product_by_id_key.
  - intros Hact. rewrite serve_delete_product.
    rewrite (scalar_unique_none ProductModel.id _ _ p ND Hp); trivial.
    + unfold active_product_by_id. now rewrite Hact, andb_false_r.
    + intros x. now apply active_product_by_id_key.
Qed.

Lemma only_the_seller_changes_a_product_witness :
  serve (update_product 1 Scenario.P_renamed Scenario.S2) Scenario.shop =
  (inl (HTTPException 403 "You can only update your products"),
   Scenario.shop)
  /\ serve (delete_product 1 Scenario.S2) Scenario.shop =
     (inl (HTTPException 403 "You can only delete your products"),
      Scenario.shop).
Proof.
  assert (ND : NoDup (map ProductModel.id (products Scenario.shop))).
  { vm_compute. repeat constructor; simpl; intuition discriminate. }
  destruct (only_the_seller_changes_a_product Scenario.shop 1 Scenario.S2
              (ProductModel.mk 1 "P" None 10%Q None 3 true 0%Q 1 1) ND)
    as (Hput & Hdel & _).
  - vm_compute. now left.
  - reflexivity.
  - vm_compute. discriminate.
  - split; [apply Hput|]. apply Hdel. reflexivity.
Defined.

(** C7, as stated, fails on a deactivated product: a seller who does not own
    it gets 404 "Product not found" from [delete_product], not 403. *)
Lemma delete_deactivated_product_not_found :
  reachable Scenario.P_deactivated
  /\ In (ProductModel.mk 1 "P" None 10%Q None 3 false 0%Q 1 1)
        (products Scenario.P_deactivated)
  /\ UserModel.id Scenario.S2 <> 1
  /\ serve (delete_product 1 Scenario.S2) Scenario.P_deactivated =
     (inl (HTTPException 404 "Product not found"), Scenario.P_deactivated)
  /\ serve (delete_product 1 Scenario.S2) Scenario.P_deactivated <>
     (inl (HTTPException 403 "You can only delete your products"),
      Scenario.P_deactivated).
Proof.
  split; [apply run_reachable|].
  split; [vm_compute; now left|].
  split; [vm_compute; discriminate|].
  split; [reflexivity|].
  vm_compute. discriminate.
Qed.

(** C8: for an active category, [get_products_by_category] succeeds, reads
    only, and returns exactly the products whose category is that category
    or one of its active immediate children. *)
Theorem products_by_category_include_children db category_id :
  (exists c, In c (categories db) /\ CategoryModel.id c = category_id
             /\ CategoryModel.is_active c = true) ->
  exists ps,
    serve (get_products_by_category category_id) db = (inr ps, db)
    /\ forall p, In p ps <->
                 In p (products db) /\ in_category_or_child db category_id p.
Proof.
  intros (c & Hc & Hid & Hact). rewrite serve_get_products_by_category.
  destruct (scalar_found (active_category_by_id category_id) _ c Hc)
    as [category ->].
  { unfold active_category_by_id. now rewrite Hid, Hact, Z.eqb_refl. }
  eexists. split; [reflexivity|]. intros p.
  rewrite filter_In. apply and_iff_compat_l.
  unfold in_category_or_child, active_child_of.
  rewrite existsb_exists. split.
  - intros (x & [<-|Hx] & E); apply Z.eqb_eq in E; [now left|right].
    apply in_map_iff in Hx as (child & <- & Hchild).
    apply filter_In in Hchild as [Hin P].
    apply andb_prop in P as [Par Act].
    exists child. repeat split; trivial.
    destruct (CategoryModel.parent_id child) as [x|]; [|discriminate].
    apply Z.eqb_eq in Par. now subst.
  - intros [E|(child & Hin & [Par Act] & E)].
    + exists category_id. split; [now left|]. now apply Z.eqb_eq.
    + exists (CategoryModel.id child). split; [|now apply Z.eqb_eq].
      right. apply in_map. apply filter_In. split; trivial.
      now rewrite Par, Act, Z.eqb_refl.
Qed.

Lemma products_by_category_include_children_witness :
  exists ps,
    serve (get_products_by_category 1) Scenario.shop = (inr ps, Scenario.shop)
    /\ In (ProductModel.mk 1 "P" None 10%Q None 3 true 0%Q 1 1) ps
    /\ In (ProductModel.mk 2 "Q" None 5%Q None 1 true 0%Q 2 1) ps.
Proof.
  destruct (products_by_category_include_children Scenario.shop 1)
    as (ps & E & H).
  - exists (CategoryModel.mk 1 "A" None true).
    split; [vm_compute; now left|]. split; reflexivity.
  - exists ps. split; [exact E|]. split; apply H.
    + split; [vm_compute; now left|]. now left.
    + split; [vm_compute; right; now left|]. right.
      exists (CategoryModel.mk 2 "B" (Some 1) true).
      split; [vm_compute; right; now left|]. repeat split.
Defined.

Lemma get_all_products_active db ps db' :
  serve get_all_products db = (inr ps, db') ->
  db' = db /\ forall p, In p ps -> ProductModel.is_active p = true.
Proof.
  rewrite serve_get_all_products. intros [= <- <-]. split; trivial.
  intros p Hp. now apply filter_In in Hp.
Qed.

(** C9: with the product P of category A deactivated, [get_all_products]
    leaves it out but [get_products_by_category] for A returns it, with
    [is_active] false. *)
Theorem products_by_category_returns_inactive :
  serve get_all_products Scenario.P_deactivated =
  (inr [ProductModel.mk 2 "Q" None 5%Q None 1 true 0%Q 2 1],
   Scenario.P_deactivated)
  /\ serve (get_products_by_category 1) Scenario.P_deactivated =
     (inr [ProductModel.mk 1 "P" None 10%Q None 3 false 0%Q 1 1;
           ProductModel.mk 2 "Q" None 5%Q None 1 true 0%Q 2 1],
      Scenario.P_deactivated).
Proof. split; reflexivity. Qed.

(** C10: where product ids are unique, the seller of a deactivated product
    can update it: [update_product] writes the update and returns the
    product, as long as the category it names, if any, is active; while
    [get_product] and [delete_product] answer 404 "Product not found" for
    the same product. *)
Theorem update_product_ignores_is_active
  db product_id product_update current_user p :
  NoDup (map ProductModel.id (products db)) ->
  In p (products db) ->
  ProductModel.id p = product_id ->
  ProductModel.is_active p = false ->
  ProductModel.seller_id p = UserModel.id current_user ->
  match ProductCreate.category_id product_update with
  | Unset => True
  | Provided None => False
  | Provided (Some category_id) =>
      exists c, In c (categories db) /\ CategoryModel.id c = category_id
                /\ CategoryModel.is_active c = true
  end ->
  let p' := product_values product_update p in
  let db' :=
    with_products (update_where (product_by_id product_id)
                                (product_values product_update)
                                (products db)) db in
  serve (update_product product_id product_update current_user) db =
  (inr p', db')
  /\ In p' (products db')
  /\ ProductModel.id p' = product_id
  /\ ProductModel.is_active p' = false
  /\ serve (get_product product_id) db =
     (inl (HTTPException 404 "Product not found"), db)
  /\ serve (delete_product product_id current_user) db =
     (inl (HTTPException 404 "Product not found"), db).
Proof.
  intros ND Hp Hid Hact Hs Hcat p' db'.
  assert (Inactive : scalar (select_where (active_product_by_id product_id)
                                          (products db)) = None).
  { apply (scalar_unique_none ProductModel.id _ _ p ND Hp).
    - unfold active_product_by_id. now rewrite Hact, andb_false_r.
    - intros x. now apply active_product_by_id_key. }
  split; [|split; [|split; [|split; [|split]]]].
  - rewrite serve_update_product.
    rewrite (scalar_unique ProductModel.id _ _ p ND Hp).
    + rewrite Hs, Z.eqb_refl. cbv zeta.
      destruct (ProductCreate.category_id product_update) as [|[c|]];
        [reflexivity| |contradiction].
      destruct Hcat as (cat & Hin & Hc & Ha).
      destruct (scalar_found (active_category_by_id c) _ cat Hin)
        as [category ->]; [|reflexivity].
      unfold active_category_by_id. now rewrite Hc, Ha, Z.eqb_refl.
    + unfold product_by_id. now rewrite Hid, Z.eqb_refl.
    + intros x. now apply product_by_id_key.
  - unfold db', update_where. cbn [products with_products].
    apply in_map_iff. exists p. split; trivial.
    unfold product_by_id. now rewrite Hid, Z.eqb_refl.
  - unfold p', product_values. rewrite <- Hid.
    destruct (ProductCreate.description product_update),
             (ProductCreate.image_url product_update),
             (ProductCreate.category_id product_update) as [|[c|]];
      reflexivity.
  - unfold p', product_values. rewrite <- Hact.
    destruct (ProductCreate.description product_update),
             (ProductCreate.image_url product_update),
             (ProductCreate.category_id product_update) as [|[c|]];
      reflexivity.
  - rewrite serve_get_product. now rewrite Inactive.
  - rewrite serve_delete_product. now rewrite Inactive.
Qed.

Lemma update_product_ignores_is_active_witness :
  serve (update_product 1 Scenario.P_renamed Scenario.S1)
        Scenario.P_deactivated =
  (inr (ProductModel.mk 1 "P2" None 12%Q None 3 false 0%Q 1 1),
   with_products [ProductModel.mk 1 "P2" None 12%Q None 3 false 0%Q 1 1;
                  ProductModel.mk 2 "Q" None 5%Q None 1 true 0%Q 2 1]
                 Scenario.P_deactivated)
  /\ serve (get_product 1) Scenario.P_deactivated =
     (inl (HTTPException 404 "Product not found"), Scenario.P_deactivated)
  /\ serve (delete_product 1 Scenario.S1) Scenario.P_deactivated =
     (inl (HTTPException 404 "Product not found"), Scenario.P_deactivated).
Proof.
  assert (ND : NoDup (map ProductModel.id (products Scenario.P_deactivated))).
  { vm_compute. repeat constructor; simpl; intuition discriminate. }
  destruct (update_product_ignores_is_active Scenario.P_deactivated 1
              Scenario.P_renamed Scenario.S1
              (ProductModel.mk 1 "P" None 10%Q None 3 false 0%Q 1 1) ND)
    as (Hput & _ & _ & _ & Hget & Hdel).
  - vm_compute. now left.
  - reflexivity.
  - reflexivity.
  - reflexivity.
  - exact I.
  - split; [exact Hput|]. split; [exact Hget|exact Hdel].
Defined.

(** ** Reviews and ratings *)

Lemma avg_active_grade_spec product_id db :
  avg_active_grade product_id db = func_avg (active_grades product_id db).
Proof. reflexivity. Qed.

Lemma active_grades_reviews product_id db db' :
  reviews db' = reviews db ->
  active_grades product_id db' = active_grades product_id db.
Proof. unfold active_grades. now intros ->. Qed.

Lemma recomputed_rating (table : list ProductModel.t) (a : Q) product_id p :
  In p (update_where (product_by_id product_id)
                     (ProductModel.set_rating (func_round a 2)) table) ->
  ProductModel.id p = product_id ->
  ProductModel.rating p = func_round a 2.
Proof.
  intros Hp Hid. apply update_where_In in Hp as (p0 & _ & ->).
  unfold product_by_id in *.
  destruct (ProductModel.id p0 =? product_id) eqn:K; [reflexivity|].
  apply Z.eqb_neq in K. contradiction.
Qed.

Lemma rounded_mean (a : Q) (xs : list Z) (r : Q) :
  func_avg xs = Some a -> r = func_round a 2 ->
  r = func_round (mean xs) 2 /\ rounded_to_2_places r (mean xs).
Proof.
  intros Ha ->. apply func_avg_mean in Ha as [_ Ha].
  rewrite (func_round_compat _ _ 2 Ha). split; [reflexivity|].
  apply func_round_2_places.
Qed.

Lemma review_by_id_key review_id (r x : ReviewModel.t) :
  ReviewModel.id r = review_id ->
  active_review_by_id review_id x = true ->
  ReviewModel.id x = ReviewModel.id r.
Proof.
  unfold active_review_by_id. intros -> H.
  apply andb_prop in H as [_ H]. now apply Z.eqb_eq.
Qed.

Lemma find_active_review db review_id review :
  NoDup (map ReviewModel.id (reviews db)) ->
  In review (reviews db) ->
  ReviewModel.id review = review_id ->
  ReviewModel.is_active review = true ->
  scalar (select_where (active_review_by_id review_id) (reviews db))
  = Some review.
Proof.
  intros ND Hr Hid Hact.
  apply (scalar_unique ReviewModel.id _ _ review ND Hr).
  - unfold active_review_by_id. now rewrite Hid, Hact, Z.eqb_refl.
  - intros x. now apply review_by_id_key.
Qed.

(** C3: [create_review] with a grade outside 1..5 fails and leaves the store
    as it was, so no review is kept and no rating changes: with 400
    "Integrity Error" naming [check_grade_range] when the product is active,
    and with 404 when there is no active product with that id. *)
Theorem out_of_range_grade_is_rejected db review current_buyer now :
  ~ 1 <= ReviewCreate.grade review <= 5 ->
  exists e,
    serve (create_review review current_buyer now) db = (inl e, db)
    /\ ((exists p, In p (products db)
                   /\ ProductModel.id p = ReviewCreate.product_id review
                   /\ ProductModel.is_active p = true) ->
        e = HTTPException 400 "Integrity Error: check_grade_range")
    /\ ((forall p, In p (products db) ->
                   ProductModel.id p = ReviewCreate.product_id review ->
                   ProductModel.is_active p = false) ->
        e = HTTPException 404
              ("Product with id " ++ str (ReviewCreate.product_id review)
               ++ " does not exist.")).
Proof.
  intros Hg. rewrite serve_create_review. cbv zeta.
  unfold ReviewModel.check_grade_range. cbn [ReviewModel.grade].
  replace ((1 <=? ReviewCreate.grade review)
           && (ReviewCreate.grade review <=? 5)) with false
    by (symmetry; apply andb_false_iff; lia).
  destruct (scalar _) as [product|] eqn:E.
  - eexists. split; [reflexivity|]. split; [reflexivity|].
    intros None_active. apply scalar_some in E as [Hin P].
    apply andb_prop in P as [K Act]. apply Z.eqb_eq in K.
    rewrite (None_active product Hin K) in Act. discriminate.
  - eexists. split; [reflexivity|]. split; [|reflexivity].
    intros (p & Hp & Hid & Hact). rewrite scalar_none in E.
    specialize (E p Hp). unfold active_product_by_id in E.
    rewrite Hid, Hact, Z.eqb_refl in E. discriminate.
Qed.

Lemma out_of_range_grade_is_rejected_witness :
  exists e,
    serve (create_review (Scenario.R 6) Scenario.buyer1 102) Scenario.reviewed
    = (inl e, Scenario.reviewed)
    /\ e = HTTPException 400 "Integrity Error: check_grade_range".
Proof.
  destruct (out_of_range_grade_is_rejected Scenario.reviewed (Scenario.R 6)
              Scenario.buyer1 102) as (e & E & H400 & _).
  - cbn. lia.
  - exists e. split; [exact E|]. apply H400.
    exists (ProductModel.mk 1 "P" None 10%Q None 3 true 3%Q 1 1).
    split; [vm_compute; now left|]. split; reflexivity.
Defined.

(** The scenario of the specification: gradings 4 and 2 give the ratings 4
    and then 3; deactivating the first review gives 2. *)
Example rating_scenario :
  map ProductModel.rating (products Scenario.reviewed) = [3%Q; 0%Q]
  /\ map ProductModel.rating
         (products (step Scenario.reviewed (DELETE_reviews 1))) = [2%Q; 0%Q]
  /\ map ProductModel.rating
         (products (step Scenario.reviewed
                         (POST_reviews (Scenario.R 5) Scenario.buyer1 102)))
     = [(367 # 100)%Q; 0%Q].
Proof. repeat split. Qed.

(** ** Primary keys

    The hypotheses on unique ids made above hold in every store the service
    can reach: an insert takes a fresh id and no update writes an id. *)

Lemma update_where_keys {R} (key : R -> Z) (p : R -> bool) (f : R -> R)
  (table : list R) :
  (forall r, key (f r) = key r) ->
  map key (update_where p f table) = map key table.
Proof.
  intros Hf. unfold update_where. rewrite map_map. apply map_ext.
  intros r. now destruct (p r).
Qed.

Lemma insert_keeps_keys_unique (ids : list Z) :
  NoDup ids -> NoDup (ids ++ [next_id ids]).
Proof.
  intros ND. apply NoDup_app; [exact ND|repeat constructor; easy|].
  intros i Hi [<-|[]]. now apply next_id_not_in in Hi.
Qed.

Lemma product_values_id product_update p :
  ProductModel.id (product_values product_update p) = ProductModel.id p.
Proof.
  unfold product_values.
  destruct (ProductCreate.description product_update),
           (ProductCreate.image_url product_update),
           (ProductCreate.category_id product_update) as [|[c|]];
    reflexivity.
Qed.

Lemma category_values_id category c :
  CategoryModel.id (category_values category c) = CategoryModel.id c.
Proof.
  unfold category_values.
  now destruct (CategoryCreate.parent_id category).
Qed.

Ltac keys :=
  cbn [categories products reviews with_categories with_products
       with_reviews];
  rewrite ?map_app, ?update_where_keys;
  auto using insert_keeps_keys_unique, product_values_id,
             category_values_id.

Lemma step_unique_ids db rq : unique_ids db -> unique_ids (step db rq).
Proof.
  intros (Hc & Hp & Hr). unfold unique_ids.
  destruct rq; unfold step.
  - rewrite serve_create_category. branches; cbn [snd]; repeat split; keys.
  - rewrite serve_update_category. branches; cbn [snd]; repeat split; keys.
  - rewrite serve_delete_category. branches; cbn [snd]; repeat split; keys.
  - rewrite serve_create_product. branches; cbn [snd]; repeat split; keys.
  - rewrite serve_update_product. branches; cbn [snd]; repeat split; keys.
  - rewrite serve_delete_product. branches; cbn [snd]; repeat split; keys.
  - rewrite serve_create_review. branches; cbn [snd]; repeat split; keys.
  - rewrite serve_delete_review. branches; cbn [snd]; repeat split; keys.
Qed.

(** X1: in every store the service can reach, the ids of the categories,
    of the products and of the reviews are unique. *)
Theorem reachable_unique_ids db : reachable db -> unique_ids db.
Proof.
  induction 1 as [|db rq _ IH].
  - repeat split; constructor.
  - now apply step_unique_ids.
Qed.

(** ** Invariants of every reachable store *)

Ltac found :=
  repeat match goal with
         | H : scalar (select_where _ _) = Some _ |- _ =>
             apply scalar_some in H as [? ?]
         end.

Lemma key_of_found_category category_id c :
  active_category_by_id category_id c = true ->
  CategoryModel.id c = category_id.
Proof.
  unfold active_category_by_id. intros H.
  apply andb_prop in H as [H _]. now apply Z.eqb_eq.
Qed.

Lemma key_of_found_product product_id p :
  active_product_by_id product_id p = true -> ProductModel.id p = product_id.
Proof.
  unfold active_product_by_id. intros H.
  apply andb_prop in H as [H _]. now apply Z.eqb_eq.
Qed.

Lemma In_key {R} (key : R -> Z) (table : list R) (r : R) (k : Z) :
  In r table -> key r = k -> In k (map key table).
Proof. intros H <-. now apply in_map. Qed.

Lemma In_keys_insert {R} (key : R -> Z) (table : list R) (new : R) (k : Z) :
  In k (map key table) -> In k (map key (table ++ [new])).
Proof. intros H. rewrite map_app. apply in_or_app. now left. Qed.

Lemma category_values_parent category c x :
  CategoryModel.parent_id (category_values category c) = Some x ->
  CategoryModel.parent_id c = Some x
  \/ value (CategoryCreate.parent_id category) = Some x.
Proof.
  unfold category_values.
  destruct (CategoryCreate.parent_id category); cbn; auto.
Qed.

Lemma product_values_category product_update p :
  ProductModel.category_id (product_values product_update p)
  = ProductModel.category_id p
  \/ value (ProductCreate.category_id product_update)
     = Some (ProductModel.category_id (product_values product_update p)).
Proof.
  unfold product_values.
  destruct (ProductCreate.description product_update),
           (ProductCreate.image_url product_update),
           (ProductCreate.category_id product_update) as [|[c|]];
    cbn; auto.
Qed.

Lemma create_category_references db category :
  references_resolve db ->
  references_resolve (step db (POST_categories category)).
Proof.
  intros (Fc & Fp & Fr). unfold step. rewrite serve_create_category.
  set (new := CategoryModel.mk _ _ _ _).
  assert (W : (forall x, CategoryModel.parent_id new = Some x ->
                         In x (map CategoryModel.id (categories db))) ->
              references_resolve
                (with_categories (categories db ++ [new]) db)).
  { intros G. unfold references_resolve.
    cbn [categories products reviews with_categories].
    split; [|split; [|exact Fr]].
    - intros c x Hc Hx. apply In_keys_insert.
      apply in_app_or in Hc as [Hc|[<-|[]]]; eauto.
    - intros p Hp. apply In_keys_insert. auto. }
  cbv zeta.
  destruct (value (CategoryCreate.parent_id category)) as [parent_id|] eqn:V.
  - destruct (scalar _) as [parent|] eqn:E; cbn [snd]; [|now repeat split].
    apply W. cbn [new CategoryModel.parent_id]. intros x [= <-].
    found. eapply In_key; eauto using key_of_found_category.
  - apply W. cbn [new CategoryModel.parent_id]. discriminate.
Qed.

Lemma update_category_references db category_id category :
  references_resolve db ->
  references_resolve (step db (PUT_categories category_id category)).
Proof.
  intros (Fc & Fp & Fr). unfold step. rewrite serve_update_category.
  destruct (scalar _) as [db_category|]; cbn [snd]; [|now repeat split].
  assert (W : (forall x, value (CategoryCreate.parent_id category) = Some x ->
                         In x (map CategoryModel.id (categories db))) ->
              references_resolve
                (with_categories
                   (update_where (category_by_id category_id)
                      (category_values category) (categories db)) db)).
  { intros G. unfold references_resolve.
    cbn [categories products reviews with_categories].
    rewrite update_where_keys by apply category_values_id.
    split; [|split; [exact Fp|exact Fr]].
    intros c x Hc Hx. apply update_where_In in Hc as (c0 & Hc0 & ->).
    destruct (category_by_id category_id c0); [|eauto].
    apply category_values_parent in Hx as [Hx|Hx]; eauto. }
  cbv zeta.
  destruct (value (CategoryCreate.parent_id category)) as [parent_id|].
  - destruct (scalar _) as [parent|] eqn:P; cbn [snd]; [|now repeat split].
    destruct (_ =? _); cbn [snd]; [now repeat split|].
    apply W. intros x [= <-]. found.
    eapply In_key; eauto. unfold category_by_id in *. now apply Z.eqb_eq.
  - apply W. discriminate.
Qed.

Lemma delete_category_references db category_id :
  references_resolve db ->
  references_resolve (step db (DELETE_categories category_id)).
Proof.
  intros (Fc & Fp & Fr). unfold step. rewrite serve_delete_category.
  destruct (scalar _); cbn [snd]; [|now repeat split].
  unfold references_resolve.
  cbn [categories products reviews with_categories].
  rewrite update_where_keys by reflexivity.
  split; [|split; [exact Fp|exact Fr]].
  intros c x Hc Hx. apply update_where_In in Hc as (c0 & Hc0 & ->).
  destruct (category_by_id category_id c0); eauto.
Qed.

Lemma create_product_references db product current_user :
  references_resolve db ->
  references_resolve (step db (POST_products product current_user)).
Proof.
  intros (Fc & Fp & Fr). unfold step. rewrite serve_create_product.
  destruct (value _) as [category_id|]; [|now repeat split].
  destruct (scalar _) as [c|] eqn:E; cbn [snd]; [|now repeat split].
  found. unfold references_resolve.
  cbn [categories products reviews with_products].
  split; [exact Fc|split].
  - intros p Hp. apply in_app_or in Hp as [Hp|[<-|[]]]; auto.
    cbn [ProductModel.category_id].
    eapply In_key; eauto using key_of_found_category.
  - intros r Hr. apply In_keys_insert. auto.
Qed.

Lemma update_product_references db product_id product_update current_user :
  references_resolve db ->
  references_resolve
    (step db (PUT_products product_id product_update current_user)).
Proof.
  intros (Fc & Fp & Fr). unfold step. rewrite serve_update_product.
  destruct (scalar _) as [product|]; cbn [snd]; [|now repeat split].
  destruct (_ =? _); cbn [snd]; [|now repeat split].
  assert (W : (forall x, value (ProductCreate.category_id product_update)
                         = Some x ->
                         In x (map CategoryModel.id (categories db))) ->
              references_resolve
                (with_products
                   (update_where (product_by_id product_id)
                      (product_values product_update) (products db)) db)).
  { intros G. unfold references_resolve.
    cbn [categories products reviews with_products].
    rewrite update_where_keys by apply product_values_id.
    split; [exact Fc|split; [|exact Fr]].
    intros p Hp. apply update_where_In in Hp as (p0 & Hp0 & ->).
    destruct (product_by_id product_id p0); [|eauto].
    destruct (product_values_category product_update p0) as [-> | Hx]; eauto. }
  cbv zeta.
  destruct (ProductCreate.category_id product_update) as [|[c|]];
    cbn [value] in W; cbn [snd].
  - apply W. discriminate.
  - destruct (scalar _) as [cat|] eqn:E; cbn [snd]; [|now repeat split].
    apply W. intros x [= <-]. found.
    eapply In_key; eauto using key_of_found_category.
  - now repeat split.
Qed.

Lemma delete_product_references db product_id current_user :
  references_resolve db ->
  references_resolve (step db (DELETE_products product_id current_user)).
Proof.
  intros (Fc & Fp & Fr). unfold step. rewrite serve_delete_product.
  destruct (scalar _) as [product|]; cbn [snd]; [|now repeat split].
  destruct (_ =? _); cbn [snd]; [|now repeat split].
  unfold references_resolve.
  cbn [categories products reviews with_products].
  rewrite update_where_keys by reflexivity.
  split; [exact Fc|split; [|exact Fr]].
  intros p Hp. apply update_where_In in Hp as (p0 & Hp0 & ->).
  destruct (product_by_id product_id p0); exact (Fp p0 Hp0).
Qed.

Lemma expected_rating_reviews product_id db db' :
  reviews db' = reviews db ->
  expected_rating product_id db' = expected_rating product_id db.
Proof.
  intros E. unfold expected_rating.
  now rewrite (active_grades_reviews _ _ _ E).
Qed.

Lemma expected_rating_avg product_id db :
  func_round match avg_active_grade product_id db with
             | Some a => a
             | None => 0%Q
             end 2
  = expected_rating product_id db.
Proof.
  rewrite avg_active_grade_spec. unfold expected_rating.
  destruct (active_grades product_id db) as [|g gs] eqn:E; [reflexivity|].
  destruct (func_avg_nonempty (g :: gs)) as [a Ha]; [discriminate|].
  rewrite Ha. apply func_round_compat. now apply func_avg_mean.
Qed.

(** The grades of the active reviews of a product after one more row. *)
Lemma active_grades_insert product_id db new :
  active_grades product_id (with_reviews (reviews db ++ [new]) db)
  = (active_grades product_id db
     ++ (if ReviewModel.is_active new
            && (ReviewModel.product_id new =? product_id)
         then [ReviewModel.grade new] else []))%list.
Proof.
  unfold active_grades. cbn [reviews with_reviews].
  rewrite filter_app, map_app. cbn [filter].
  now destruct (_ && _).
Qed.

(** [create_review], with the rating it writes named by what it is. *)
Lemma create_review_recomputes db review current_buyer now :
  let product_id := ReviewCreate.product_id review in
  let db_review :=
    ReviewModel.mk (next_id (map ReviewModel.id (reviews db)))
                   (UserModel.id current_buyer) product_id
                   (ReviewCreate.comment review) now
                   (ReviewCreate.grade review) true in
  let db1 := with_reviews (reviews db ++ [db_review]) db in
  serve (create_review review current_buyer now) db =
  match scalar (select_where (active_product_by_id product_id)
                             (products db)) with
  | None =>
      (inl (HTTPException 404 ("Product with id " ++ str product_id
                               ++ " does not exist.")), db)
  | Some _ =>
      if ReviewModel.check_grade_range db_review
      then (inr db_review,
            with_products
              (update_where (product_by_id product_id)
                 (ProductModel.set_rating (expected_rating product_id db1))
                 (products db)) db1)
      else (inl (HTTPException 400 "Integrity Error: check_grade_range"), db)
  end.
Proof.
  intros product_id db_review db1. rewrite serve_create_review.
  fold product_id. fold db_review. fold db1.
  destruct (scalar _); [|reflexivity].
  destruct (ReviewModel.check_grade_range db_review); [|reflexivity].
  rewrite <- expected_rating_avg.
  destruct (avg_active_grade product_id db1) eqn:E; [reflexivity|].
  exfalso. rewrite avg_active_grade_spec in E. unfold db1 in E.
  rewrite active_grades_insert in E.
  cbn [db_review ReviewModel.is_active ReviewModel.product_id andb] in E.
  rewrite Z.eqb_refl in E.
  destruct (active_grades product_id db); discriminate.
Qed.

(** [delete_review], with the rating it writes named by what it is. *)
Lemma delete_review_recomputes db review_id :
  serve (delete_review review_id) db =
  match scalar (select_where (active_review_by_id review_id)
                             (reviews db)) with
  | None =>
      (inl (HTTPException 404 ("Review with id " ++ str review_id
                               ++ " does not exist.")), db)
  | Some review =>
      let db1 :=
        with_reviews (update_where (fun r => ReviewModel.id r =? review_id)
                                   (ReviewModel.set_is_active false)
                                   (reviews db)) db in
      (inr "Review marked as inactive",
       with_products
         (update_where (product_by_id (ReviewModel.product_id review))
            (ProductModel.set_rating
               (expected_rating (ReviewModel.product_id review) db1))
            (products db)) db1)
  end.
Proof.
  rewrite serve_delete_review. destruct (scalar _); [|reflexivity].
  cbv zeta. now rewrite <- expected_rating_avg.
Qed.

Lemma create_review_references db review current_buyer now :
  references_resolve db ->
  references_resolve (step db (POST_reviews review current_buyer now)).
Proof.
  intros (Fc & Fp & Fr). unfold step. rewrite create_review_recomputes.
  cbv zeta. destruct (scalar _) as [product|] eqn:E; cbn [snd];
    [|now repeat split].
  destruct (ReviewModel.check_grade_range _); cbn [snd]; [|now repeat split].
  found. unfold references_resolve.
  cbn [categories products reviews with_products with_reviews].
  rewrite update_where_keys by reflexivity.
  split; [exact Fc|split].
  - intros p Hp. apply update_where_In in Hp as (p0 & Hp0 & ->).
    destruct (product_by_id _ p0); exact (Fp p0 Hp0).
  - intros r Hr. apply in_app_or in Hr as [Hr|[<-|[]]]; auto.
    cbn [ReviewModel.product_id].
    eapply In_key; eauto using key_of_found_product.
Qed.

Lemma delete_review_references db review_id :
  references_resolve db ->
  references_resolve (step db (DELETE_reviews review_id)).
Proof.
  intros (Fc & Fp & Fr). unfold step. rewrite delete_review_recomputes.
  destruct (scalar _) as [review|]; cbn [snd]; [|now repeat split].
  unfold references_resolve.
  cbn [categories products reviews with_products with_reviews].
  rewrite update_where_keys by reflexivity.
  split; [exact Fc|split].
  - intros p Hp. apply update_where_In in Hp as (p0 & Hp0 & ->).
    destruct (product_by_id _ p0); exact (Fp p0 Hp0).
  - intros r Hr. apply update_where_In in Hr as (r0 & Hr0 & ->).
    destruct (_ =? _); exact (Fr r0 Hr0).
Qed.

Lemma step_references db rq :
  references_resolve db -> references_resolve (step db rq).
Proof.
  destruct rq.
  - apply create_category_references.
  - apply update_category_references.
  - apply delete_category_references.
  - apply create_product_references.
  - apply update_product_references.
  - apply delete_product_references.
  - apply create_review_references.
  - apply delete_review_references.
Qed.

(** X2: in every store the service can reach, the parent of a category, the
    category of a product and the product of a review exist: the handlers
    check what they reference and never remove a row. *)
Theorem reachable_references_resolve db :
  reachable db -> references_resolve db.
Proof.
  induction 1 as [|db rq _ IH].
  - repeat split; cbn; intros; contradiction.
  - now apply step_references.
Qed.

Lemma map_filter_update {R B} (p : R -> bool) (g : R -> B) (u : R -> R)
  (table : list R) :
  (forall x, In x table -> p (u x) = p x /\ g (u x) = g x) ->
  map g (filter p (map u table)) = map g (filter p table).
Proof.
  induction table as [|x l IH]; intros H; [reflexivity|].
  cbn [map filter]. destruct (H x (or_introl eq_refl)) as [-> G].
  assert (E : map g (filter p (map u l)) = map g (filter p l))
    by (apply IH; intros y Hy; apply H; now right).
  destruct (p x); cbn [map]; now rewrite ?G, E.
Qed.

(** Deactivating a review leaves the active grades of other products. *)
Lemma active_grades_deactivate db review_id review product_id :
  NoDup (map ReviewModel.id (reviews db)) ->
  In review (reviews db) ->
  ReviewModel.id review = review_id ->
  ReviewModel.product_id review <> product_id ->
  active_grades product_id
    (with_reviews (update_where (fun r => ReviewModel.id r =? review_id)
                                (ReviewModel.set_is_active false)
                                (reviews db)) db)
  = active_grades product_id db.
Proof.
  intros ND Hr Hid Hp. unfold active_grades, update_where.
  cbn [reviews with_reviews]. apply map_filter_update.
  intros x Hx. destruct (ReviewModel.id x =? review_id) eqn:K; [|easy].
  apply Z.eqb_eq in K.
  assert (x = review) as ->
    by (apply (unique_key ReviewModel.id (reviews db)); congruence).
  cbn [ReviewModel.set_is_active ReviewModel.is_active
       ReviewModel.product_id ReviewModel.grade andb].
  apply Z.eqb_neq in Hp. rewrite Hp, andb_false_r. easy.
Qed.

Lemma no_reviews_no_grades product_id db :
  (forall r, In r (reviews db) -> ReviewModel.product_id r <> product_id) ->
  active_grades product_id db = [].
Proof.
  intros H. unfold active_grades.
  replace (filter _ (reviews db)) with (@nil ReviewModel.t); [reflexivity|].
  symmetry. induction (reviews db) as [|r l IH]; [reflexivity|].
  cbn [filter]. assert ((ReviewModel.product_id r =? product_id) = false) as ->
    by (apply Z.eqb_neq, H; now left).
  rewrite andb_false_r. apply IH. intros x Hx. apply H. now right.
Qed.

Lemma product_values_rating product_update p :
  ProductModel.rating (product_values product_update p)
  = ProductModel.rating p.
Proof.
  unfold product_values.
  destruct (ProductCreate.description product_update),
           (ProductCreate.image_url product_update),
           (ProductCreate.category_id product_update) as [|[c|]];
    reflexivity.
Qed.

(** What each kind of request leaves alone. *)
Lemma step_frame db rq :
  match rq with
  | POST_categories _ | PUT_categories _ _ | DELETE_categories _ =>
      products (step db rq) = products db /\ reviews (step db rq) = reviews db
  | POST_products _ _ | PUT_products _ _ _ | DELETE_products _ _ =>
      categories (step db rq) = categories db
      /\ reviews (step db rq) = reviews db
  | POST_reviews _ _ _ | DELETE_reviews _ =>
      categories (step db rq) = categories db
  end.
Proof.
  destruct rq; unfold step.
  - rewrite serve_create_category. branches; now split.
  - rewrite serve_update_category. branches; now split.
  - rewrite serve_delete_category. branches; now split.
  - rewrite serve_create_product. branches; now split.
  - rewrite serve_update_product. branches; now split.
  - rewrite serve_delete_product. branches; now split.
  - rewrite serve_create_review. branches; reflexivity.
  - rewrite serve_delete_review. branches; reflexivity.
Qed.

Lemma ratings_consistent_ext db db' :
  products db' = products db -> reviews db' = reviews db ->
  ratings_consistent db -> ratings_consistent db'.
Proof.
  intros Ep Er I p Hp. rewrite Ep in Hp.
  rewrite (expected_rating_reviews _ _ _ Er). now apply I.
Qed.

(** Rows rewritten without touching id or rating keep the ratings right. *)
Lemma ratings_consistent_update db p u :
  (forall x, ProductModel.id (u x) = ProductModel.id x) ->
  (forall x, ProductModel.rating (u x) = ProductModel.rating x) ->
  ratings_consistent db ->
  ratings_consistent (with_products (update_where p u (products db)) db).
Proof.
  intros Hid Hrat I x Hx. cbn [products with_products] in Hx.
  apply update_where_In in Hx as (x0 & Hx0 & ->).
  rewrite (expected_rating_reviews _ db) by reflexivity.
  destruct (p x0); [|now apply I]. rewrite Hid, Hrat. now apply I.
Qed.

Lemma step_ratings_consistent db rq :
  unique_ids db -> references_resolve db -> ratings_consistent db ->
  ratings_consistent (step db rq).
Proof.
  intros (_ & _ & NDr) (_ & _ & Fr) I.
  pose proof (step_frame db rq) as Fm.
  destruct rq; try (destruct Fm; now apply (ratings_consistent_ext db)).
  - (* create_product *)
    unfold step. rewrite serve_create_product. branches; cbn [snd]; trivial.
    intros p Hp. cbn [products with_products] in Hp.
    rewrite (expected_rating_reviews _ db) by reflexivity.
    apply in_app_or in Hp as [Hp|[<-|[]]]; [now apply I|].
    cbn [ProductModel.rating ProductModel.id]. unfold expected_rating.
    rewrite no_reviews_no_grades; [reflexivity|].
    intros r Hr E. apply Fr in Hr. rewrite E in Hr.
    now apply next_id_not_in in Hr.
  - (* update_product *)
    unfold step. rewrite serve_update_product. branches; cbn [snd]; trivial;
      apply ratings_consistent_update;
      auto using product_values_id, product_values_rating.
  - (* delete_product *)
    unfold step. rewrite serve_delete_product. branches; cbn [snd]; trivial.
    now apply ratings_consistent_update.
  - (* create_review *)
    unfold step. rewrite create_review_recomputes. cbv zeta.
    destruct (scalar _); cbn [snd]; trivial.
    destruct (ReviewModel.check_grade_range _); cbn [snd]; trivial.
    set (db1 := with_reviews _ db). set (db2 := with_products _ db1).
    intros p Hp. unfold db2 in Hp. cbn [products with_products] in Hp.
    apply update_where_In in Hp as (p0 & Hp0 & ->).
    rewrite (expected_rating_reviews _ db1 db2) by reflexivity.
    unfold product_by_id.
    destruct (ProductModel.id p0 =? _) eqn:K.
    + apply Z.eqb_eq in K. cbn [ProductModel.set_rating ProductModel.rating
                                 ProductModel.id]. now rewrite K.
    + rewrite (I p0 Hp0). unfold expected_rating, db1.
      rewrite active_grades_insert. cbn [ReviewModel.product_id].
      rewrite Z.eqb_sym, K, andb_false_r. now rewrite app_nil_r.
  - (* delete_review *)
    unfold step. rewrite delete_review_recomputes.
    destruct (scalar _) as [review|] eqn:E; cbn [snd]; trivial.
    cbv zeta. set (db1 := with_reviews _ db).
    set (db2 := with_products _ db1).
    intros p Hp. unfold db2 in Hp. cbn [products with_products] in Hp.
    apply update_where_In in Hp as (p0 & Hp0 & ->).
    rewrite (expected_rating_reviews _ db1 db2) by reflexivity.
    unfold product_by_id.
    destruct (ProductModel.id p0 =? _) eqn:K.
    + apply Z.eqb_eq in K. cbn [ProductModel.set_rating ProductModel.rating
                                 ProductModel.id]. now rewrite K.
    + rewrite (I p0 Hp0). unfold expected_rating, db1.
      apply scalar_some in E as [Hin P].
      apply andb_prop in P as [_ P]. apply Z.eqb_eq in P.
      rewrite (active_grades_deactivate db review_id review); trivial.
      apply Z.eqb_neq in K. congruence.
Qed.

Lemma ratings_invariant db : reachable db -> ratings_consistent db.
Proof.
  intros H.
  enough (unique_ids db /\ references_resolve db /\ ratings_consistent db)
    by tauto.
  induction H as [|db rq _ (U & F & I)].
  - split; [|split].
    + repeat split; constructor.
    + repeat split; cbn; intros; contradiction.
    + intros p [].
  - split; [|split].
    + now apply step_unique_ids.
    + now apply step_references.
    + now apply step_ratings_consistent.
Qed.

(** X3: in every store the service can reach, the rating of every product
    is the rounded average of the grades of its active reviews, and 0 when
    it has none. *)
Theorem reachable_ratings_consistent db :
  reachable db -> ratings_consistent db.
Proof. exact (ratings_invariant db). Qed.

Lemma step_grades_in_range db rq :
  grades_in_range db -> grades_in_range (step db rq).
Proof.
  intros I. pose proof (step_frame db rq) as Fm.
  destruct rq.
  1-6: destruct Fm as [_ Er]; unfold grades_in_range; now rewrite Er.
  - unfold step. rewrite create_review_recomputes. cbv zeta.
    destruct (scalar _); cbn [snd]; trivial.
    destruct (ReviewModel.check_grade_range _) eqn:C; cbn [snd]; trivial.
    intros r Hr. cbn [reviews with_products with_reviews] in Hr.
    apply in_app_or in Hr as [Hr|[<-|[]]]; [now apply I|].
    unfold ReviewModel.check_grade_range in C. lia.
  - unfold step. rewrite delete_review_recomputes.
    destruct (scalar _); cbn [snd]; trivial.
    intros r Hr. cbn [reviews with_products with_reviews] in Hr.
    apply update_where_In in Hr as (r0 & Hr0 & ->).
    destruct (_ =? _); exact (I r0 Hr0).
Qed.

Lemma grades_invariant db : reachable db -> grades_in_range db.
Proof.
  induction 1 as [|db rq _ IH]; [intros r []|now apply step_grades_in_range].
Qed.

(** X4: in every store the service can reach, every review has a grade from
    1 to 5: a review with another grade is never committed. *)
Theorem reachable_grades_in_range db : reachable db -> grades_in_range db.
Proof. exact (grades_invariant db). Qed.

Lemma active_grades_stored product_id db g :
  In g (active_grades product_id db) ->
  exists r, In r (reviews db) /\ ReviewModel.grade r = g.
Proof.
  unfold active_grades. rewrite in_map_iff. intros (r & E & Hr).
  apply filter_In in Hr as [Hr _]. eauto.
Qed.

Lemma sum_bounds (xs : list Z) :
  (forall x, In x xs -> 1 <= x <= 5) ->
  Z.of_nat (length xs) <= fold_right Z.add 0 xs <= 5 * Z.of_nat (length xs).
Proof.
  induction xs as [|x l IH]; intros H; [cbn; lia|].
  cbn [length fold_right]. specialize (H x (or_introl eq_refl)) as Hx.
  assert (Hl : forall y, In y l -> 1 <= y <= 5)
    by (intros y Hy; apply H; now right).
  specialize (IH Hl). lia.
Qed.

Lemma mean_bounds (xs : list Z) :
  xs <> [] -> (forall x, In x xs -> 1 <= x <= 5) ->
  (1 <= mean xs <= 5)%Q.
Proof.
  intros NE H. pose proof (sum_bounds xs H) as [L U].
  assert (P : 0 < Z.of_nat (length xs)) by (destruct xs; [easy|cbn; lia]).
  unfold mean. split.
  - apply Qle_shift_div_l.
    + change 0%Q with (inject_Z 0). now rewrite <- Zlt_Qlt.
    + rewrite Qmult_1_l. now rewrite <- Zle_Qle.
  - apply Qle_shift_div_r.
    + change 0%Q with (inject_Z 0). now rewrite <- Zlt_Qlt.
    + change 5%Q with (inject_Z 5). rewrite <- inject_Z_mult.
      now rewrite <- Zle_Qle.
Qed.

Lemma func_round_bounds (x : Q) :
  (1 <= x <= 5)%Q -> (1 <= func_round x 2 <= 5)%Q.
Proof.
  intros [L U]. unfold func_round. change (10 ^ 2) with 100.
  assert (Qle_bool 0 x = true) as -> by (apply Qle_bool_iff; lra).
  rewrite Qred_correct.
  set (k := Qfloor (x * inject_Z 100 + (1 # 2))).
  assert (Hk : 100 <= k <= 500).
  { split.
    - change 100 with (Qfloor (inject_Z 100)). apply Qfloor_resp_le.
      change (inject_Z 100) with 100%Q. lra.
    - change 500 with (Qfloor (inject_Z 500 + (1 # 2))).
      apply Qfloor_resp_le.
      change (inject_Z 100) with 100%Q. change (inject_Z 500) with 500%Q.
      lra. }
  destruct Hk as [Hl Hu]. rewrite Zle_Qle in Hl, Hu.
  change (inject_Z 100) with 100%Q in *. change (inject_Z 500) with 500%Q in *.
  unfold Qdiv. change (/ 100)%Q with (1 # 100)%Q. split; lra.
Qed.

(** X5: in every store the service can reach, the rating of a product is 0 or
    lies between 1 and 5. *)
Theorem reachable_rating_bounds db p :
  reachable db -> In p (products db) ->
  ProductModel.rating p = 0%Q \/ (1 <= ProductModel.rating p <= 5)%Q.
Proof.
  intros H Hp. rewrite (ratings_invariant db H p Hp).
  unfold expected_rating.
  destruct (active_grades _ db) as [|g gs] eqn:E; [now left|right].
  apply func_round_bounds, mean_bounds; [discriminate|].
  intros x Hx. rewrite <- E in Hx.
  apply active_grades_stored in Hx as (r & Hr & <-).
  now apply (grades_invariant db H).
Qed.

(** ** Failures, deletions and the log *)

(** X6: a request that is answered with a failure leaves the store as it was,
    whatever the handler had written or committed before it raised. *)
Theorem failed_request_changes_nothing db rq e :
  answer db rq = Some e -> step db rq = db.
Proof.
  destruct rq; unfold answer, step.
  - rewrite serve_create_category. branches; cbn; congruence.
  - rewrite serve_update_category. branches; cbn; congruence.
  - rewrite serve_delete_category. branches; cbn; congruence.
  - rewrite serve_create_product. branches; cbn; congruence.
  - rewrite serve_update_product. branches; cbn; congruence.
  - rewrite serve_delete_product. branches; cbn; congruence.
  - rewrite create_review_recomputes. branches; cbn; congruence.
  - rewrite delete_review_recomputes. branches; cbn; congruence.
Qed.

Lemma extends_refl ids : extends ids ids.
Proof. exists []. now rewrite app_nil_r. Qed.

Lemma extends_insert {R} (key : R -> Z) (table : list R) (new : R) :
  extends (map key table) (map key (table ++ [new])).
Proof. exists [key new]. now rewrite map_app. Qed.

Lemma extends_update {R} (key : R -> Z) p u (table : list R) :
  (forall r, key (u r) = key r) ->
  extends (map key table) (map key (update_where p u table)).
Proof. intros H. rewrite update_where_keys by exact H. apply extends_refl. Qed.

Ltac kept :=
  cbn [snd categories products reviews with_categories with_products
       with_reviews];
  repeat split;
  auto using extends_refl, extends_insert, extends_update,
             category_values_id, product_values_id.

(** X7: no request removes a row: after any request each table still holds
    every id it held, in the same place. *)
Theorem rows_are_never_removed db rq :
  extends (map CategoryModel.id (categories db))
          (map CategoryModel.id (categories (step db rq)))
  /\ extends (map ProductModel.id (products db))
             (map ProductModel.id (products (step db rq)))
  /\ extends (map ReviewModel.id (reviews db))
             (map ReviewModel.id (reviews (step db rq))).
Proof.
  destruct rq; unfold step.
  - rewrite serve_create_category. branches; kept.
  - rewrite serve_update_category. branches; kept.
  - rewrite serve_delete_category. branches; kept.
  - rewrite serve_create_product. branches; kept.
  - rewrite serve_update_product. branches; kept.
  - rewrite serve_delete_product. branches; kept.
  - rewrite create_review_recomputes. branches; kept.
  - rewrite delete_review_recomputes. branches; kept.
Qed.

(** Case analysis on what the handler read, then on its answer. *)
Ltac answers :=
  repeat match goal with
         | |- context [match ?x with _ => _ end] =>
             lazymatch x with
             | context [match _ with _ => _ end] => fail
             | _ => destruct x eqn:?
             end;
             cbn beta iota zeta delta [failure fst snd]
         end.

(** X8: the handlers fail with 400, 403 or 404 only.  [log_middleware] passes
    the status code on and logs 403 and 404 as warnings, but a 400 at INFO
    like a success; an exception of another kind becomes a 500, logged as an
    error. *)
Theorem log_middleware_levels db rq :
  match answer db rq with
  | None => log_middleware (call_next db rq) = (INFO, success_status rq)
  | Some (HTTPException status_code _) =>
      (status_code = 400
       /\ log_middleware (call_next db rq) = (INFO, 400))
      \/ ((status_code = 403 \/ status_code = 404)
          /\ log_middleware (call_next db rq) = (WARNING, status_code))
  | Some (Unhandled _) => log_middleware (call_next db rq) = (ERROR, 500)
  end.
Proof.
  unfold call_next. destruct rq; unfold answer.
  - rewrite serve_create_category. answers; cbn; auto.
  - rewrite serve_update_category. answers; cbn; auto.
  - rewrite serve_delete_category. answers; cbn; auto.
  - rewrite serve_create_product. answers; cbn; auto.
  - rewrite serve_update_product. answers; cbn; auto.
  - rewrite serve_delete_product. answers; cbn; auto.
  - rewrite create_review_recomputes. answers; cbn; auto.
  - rewrite delete_review_recomputes. answers; cbn; auto.
Qed.

(** ** What a deletion hides *)

Lemma serve_get_all_categories db :
  serve get_all_categories db =
  (inr (filter CategoryModel.is_active (categories db)), db).
Proof. reflexivity. Qed.

Lemma serve_get_reviews db :
  serve get_reviews db = (inr (filter ReviewModel.is_active (reviews db)), db).
Proof. reflexivity. Qed.

Lemma serve_get_reviews_by_product db product_id :
  serve (get_reviews_by_product product_id) db =
  match scalar (select_where (active_product_by_id product_id)
                             (products db)) with
  | None =>
      (inl (HTTPException 404 ("Product with id " ++ str product_id
                               ++ " does not exist.")), db)
  | Some _ =>
      (inr (filter (fun r => (ReviewModel.product_id r =? product_id)
                             && ReviewModel.is_active r)
                   (reviews db)), db)
  end.
Proof. unfold get_reviews_by_product. run_handler. Qed.

(** After rows with a key are deactivated, no active row has the key. *)
Lemma deactivated_not_found {R} (key : R -> Z) (active : R -> bool)
  (off : R -> R) (k : Z) (table : list R) :
  (forall r, key (off r) = key r) ->
  (forall r, active (off r) = false) ->
  forall r, In r (update_where (fun x => key x =? k) off table) ->
            (key r =? k) && active r = false.
Proof.
  intros Hk Ha r Hr. apply update_where_In in Hr as (r0 & _ & ->).
  destruct (key r0 =? k) eqn:K.
  - now rewrite Ha, andb_false_r.
  - now rewrite K.
Qed.

Lemma deleted_category_not_found db category_id :
  scalar (select_where (active_category_by_id category_id)
            (update_where (category_by_id category_id)
               (CategoryModel.set_is_active false) (categories db)))
  = None.
Proof.
  apply scalar_none. intros c Hc.
  now apply (deactivated_not_found CategoryModel.id CategoryModel.is_active
               (CategoryModel.set_is_active false) category_id
               (categories db)).
Qed.

Lemma deleted_product_not_found db product_id :
  scalar (select_where (active_product_by_id product_id)
            (update_where (product_by_id product_id)
               (ProductModel.set_is_active false) (products db)))
  = None.
Proof.
  apply scalar_none. intros p Hp.
  now apply (deactivated_not_found ProductModel.id ProductModel.is_active
               (ProductModel.set_is_active false) product_id (products db)).
Qed.

Lemma deleted_review_not_found db review_id :
  scalar (select_where (active_review_by_id review_id)
            (update_where (fun r => ReviewModel.id r =? review_id)
               (ReviewModel.set_is_active false) (reviews db)))
  = None.
Proof.
  apply scalar_none. intros r Hr. unfold active_review_by_id.
  rewrite andb_comm.
  now apply (deactivated_not_found ReviewModel.id ReviewModel.is_active
               (ReviewModel.set_is_active false) review_id (reviews db)).
Qed.

(** X9: once [delete_category] has succeeded for an id, no endpoint sees a
    category with that id any more: it is not listed, it cannot be updated,
    deleted again or queried for products (404), and it is refused as the
    parent of a new category (400) and as the category of a new product
    (404). *)
Theorem deleted_category_is_gone db category_id out db' :
  serve (delete_category category_id) db = (inr out, db') ->
  (exists cs, serve get_all_categories db' = (inr cs, db')
              /\ forall c, In c cs -> CategoryModel.id c <> category_id)
  /\ (forall category,
         serve (update_category category_id category) db' =
         (inl (HTTPException 404 "Category not found"), db'))
  /\ serve (delete_category category_id) db' =
     (inl (HTTPException 404 "Category not found"), db')
  /\ serve (get_products_by_category category_id) db' =
     (inl (HTTPException 404 "Category not found"), db')
  /\ (forall category,
         value (CategoryCreate.parent_id category) = Some category_id ->
         serve (create_category category) db' =
         (inl (HTTPException 400 "Parent category not found"), db'))
  /\ (forall product current_user,
         value (ProductCreate.category_id product) = Some category_id ->
         serve (create_product product current_user) db' =
         (inl (HTTPException 404 "Category not found"), db')).
Proof.
  rewrite serve_delete_category.
  destruct (scalar _) as [found_category|]; [|discriminate].
  intros [= _ <-].
  pose proof (deleted_category_not_found db category_id) as Gone.
  split; [|split; [|split; [|split; [|split]]]].
  - rewrite serve_get_all_categories. eexists. split; [reflexivity|].
    intros c Hc. apply filter_In in Hc as [Hc Act]. intros K.
    rewrite scalar_none in Gone. specialize (Gone c Hc).
    unfold active_category_by_id in Gone.
    rewrite K, Z.eqb_refl, Act in Gone. discriminate.
  - intros category. rewrite serve_update_category.
    cbn [categories with_categories]. now rewrite Gone.
  - rewrite serve_delete_category.
    cbn [categories with_categories]. now rewrite Gone.
  - rewrite serve_get_products_by_category.
    cbn [categories with_categories]. now rewrite Gone.
  - intros category V. rewrite serve_create_category. cbv zeta.
    rewrite V. cbn [categories with_categories]. now rewrite Gone.
  - intros product current_user V. rewrite serve_create_product.
    rewrite V. cbn [categories with_categories]. now rewrite Gone.
Qed.

(** X10: [delete_product] succeeds only for the seller of an active product; it
    changes nothing but [is_active] of the rows with that id, and afterwards
    the product is not listed, cannot be fetched, deleted again or reviewed,
    and its reviews cannot be listed (404). *)
Theorem deleted_product_is_gone db product_id current_user out db' :
  serve (delete_product product_id current_user) db = (inr out, db') ->
  (exists p, In p (products db) /\ ProductModel.id p = product_id
             /\ ProductModel.is_active p = true
             /\ ProductModel.seller_id p = UserModel.id current_user)
  /\ categories db' = categories db
  /\ reviews db' = reviews db
  /\ (forall i p, nth_error (products db) i = Some p ->
        nth_error (products db') i =
        Some (if ProductModel.id p =? product_id
              then ProductModel.set_is_active false p else p))
  /\ (exists ps, serve get_all_products db' = (inr ps, db')
                 /\ forall p, In p ps -> ProductModel.id p <> product_id)
  /\ serve (get_product product_id) db' =
     (inl (HTTPException 404 "Product not found"), db')
  /\ (forall user,
         serve (delete_product product_id user) db' =
         (inl (HTTPException 404 "Product not found"), db'))
  /\ (forall review current_buyer now,
         ReviewCreate.product_id review = product_id ->
         serve (create_review review current_buyer now) db' =
         (inl (HTTPException 404 ("Product with id " ++ str product_id
                                  ++ " does not exist.")), db'))
  /\ serve (get_reviews_by_product product_id) db' =
     (inl (HTTPException 404 ("Product with id " ++ str product_id
                              ++ " does not exist.")), db').
Proof.
  rewrite serve_delete_product.
  destruct (scalar _) as [product|] eqn:E; [|discriminate].
  destruct (_ =? _) eqn:S; [|discriminate]. intros [= _ <-].
  pose proof (deleted_product_not_found db product_id) as Gone.
  apply scalar_some in E as [Hin P]. apply andb_prop in P as [K Act].
  apply Z.eqb_eq in K, S.
  split; [now exists product|].
  split; [reflexivity|]. split; [reflexivity|].
  split; [|split; [|split; [|split; [|split]]]].
  - intros i p Hi. cbn [products with_products].
    now rewrite (update_where_nth _ _ _ _ _ Hi).
  - rewrite serve_get_all_products. eexists. split; [reflexivity|].
    intros p Hp. apply filter_In in Hp as [Hp Actp]. intros Kp.
    rewrite scalar_none in Gone. specialize (Gone p Hp).
    unfold active_product_by_id in Gone.
    rewrite Kp, Z.eqb_refl, Actp in Gone. discriminate.
  - rewrite serve_get_product. cbn [products with_products].
    now rewrite Gone.
  - intros user. rewrite serve_delete_product. cbn [products with_products].
    now rewrite Gone.
  - intros review current_buyer now <-. rewrite serve_create_review.
    cbv zeta. cbn [products with_products]. now rewrite Gone.
  - rewrite serve_get_reviews_by_product. cbn [products with_products].
    now rewrite Gone.
Qed.

(** X11: [delete_review] succeeds only for an active review; it leaves the
    categories alone and in the reviews changes nothing but [is_active] of
    the rows with that id; afterwards the review is not listed and cannot be
    deleted again (404). *)
Theorem deleted_review_is_gone db review_id out db' :
  serve (delete_review review_id) db = (inr out, db') ->
  (exists r, In r (reviews db) /\ ReviewModel.id r = review_id
             /\ ReviewModel.is_active r = true)
  /\ categories db' = categories db
  /\ (forall i r, nth_error (reviews db) i = Some r ->
        nth_error (reviews db') i =
        Some (if ReviewModel.id r =? review_id
              then ReviewModel.set_is_active false r else r))
  /\ (exists rs, serve get_reviews db' = (inr rs, db')
                 /\ forall r, In r rs -> ReviewModel.id r <> review_id)
  /\ serve (delete_review review_id) db' =
     (inl (HTTPException 404 ("Review with id " ++ str review_id
                              ++ " does not exist.")), db').
Proof.
  rewrite delete_review_recomputes.
  destruct (scalar _) as [review|] eqn:E; [|discriminate]. intros [= _ <-].
  pose proof (deleted_review_not_found db review_id) as Gone.
  apply scalar_some in E as [Hin P]. apply andb_prop in P as [Act K].
  apply Z.eqb_eq in K.
  split; [now exists review|]. split; [reflexivity|].
  split; [|split].
  - intros i r Hi. cbn [reviews with_products with_reviews].
    now rewrite (update_where_nth _ _ _ _ _ Hi).
  - rewrite serve_get_reviews. eexists. split; [reflexivity|].
    intros r Hr. apply filter_In in Hr as [Hr Actr]. intros Kr.
    rewrite scalar_none in Gone. specialize (Gone r Hr).
    unfold active_review_by_id in Gone.
    rewrite Kr, Z.eqb_refl, Actr in Gone. discriminate.
  - rewrite delete_review_recomputes.
    cbn [reviews with_products with_reviews]. now rewrite Gone.
Qed.

(** ** What a creation shows *)

Lemma scalar_inserted {R} (p : R -> bool) (table : list R) (new : R) :
  (forall r, In r table -> p r = false) -> p new = true ->
  scalar (select_where p (table ++ [new])) = Some new.
Proof.
  intros Hold Hnew. unfold scalar, select_where. rewrite filter_app.
  replace (filter p table) with (@nil R).
  - cbn [filter app]. now rewrite Hnew.
  - symmetry. apply scalar_none in Hold. unfold scalar, select_where in Hold.
    now destruct (filter p table).
Qed.

Lemma fresh_key_not_selected {R} (key : R -> Z) (q : R -> bool)
  (table : list R) (r : R) :
  In r table -> (key r =? next_id (map key table)) && q r = false.
Proof.
  intros Hr. replace (key r =? _) with false; [reflexivity|].
  symmetry. apply Z.eqb_neq.
  pose proof (next_id_fresh (map key table) (key r) (in_map key _ _ Hr)).
  lia.
Qed.

(** X12: [create_product] with an active category succeeds.  The new product
    has a fresh id, belongs to the seller who created it, is active and
    rated 0; [get_product] on its id returns it, and [get_all_products] and
    [get_products_by_category] on its category list it. *)
Theorem created_product_round_trip db product current_user category_id :
  value (ProductCreate.category_id product) = Some category_id ->
  (exists c, In c (categories db) /\ CategoryModel.id c = category_id
             /\ CategoryModel.is_active c = true) ->
  exists new db',
    serve (create_product product current_user) db = (inr new, db')
    /\ ~ In (ProductModel.id new) (map ProductModel.id (products db))
    /\ ProductModel.seller_id new = UserModel.id current_user
    /\ ProductModel.category_id new = category_id
    /\ ProductModel.is_active new = true
    /\ ProductModel.rating new = 0%Q
    /\ serve (get_product (ProductModel.id new)) db' = (inr new, db')
    /\ (exists ps, serve get_all_products db' = (inr ps, db') /\ In new ps)
    /\ (exists ps, serve (get_products_by_category category_id) db'
                   = (inr ps, db') /\ In new ps).
Proof.
  intros V (c & Hc & Hid & Hact). rewrite serve_create_product, V.
  destruct (scalar_found (active_category_by_id category_id) _ c Hc)
    as [cat E].
  { unfold active_category_by_id. now rewrite Hid, Hact, Z.eqb_refl. }
  rewrite E. cbv zeta. set (new := ProductModel.mk _ _ _ _ _ _ _ _ _ _).
  exists new. eexists. split; [reflexivity|].
  split; [apply next_id_not_in|]. repeat (split; [reflexivity|]).
  assert (Hnew : In new (products db ++ [new]))
    by (apply in_or_app; right; now left).
  split; [|split].
  - rewrite serve_get_product. cbn [products with_products].
    rewrite scalar_inserted; trivial.
    + intros r. apply fresh_key_not_selected.
    + unfold active_product_by_id. cbn [new ProductModel.id
        ProductModel.is_active]. now rewrite Z.eqb_refl.
  - rewrite serve_get_all_products. eexists. split; [reflexivity|].
    apply filter_In. now split.
  - rewrite serve_get_products_by_category.
    cbn [categories products with_products]. rewrite E.
    eexists. split; [reflexivity|]. apply filter_In. split; trivial.
    cbn [existsb new ProductModel.category_id]. now rewrite Z.eqb_refl.
Qed.

(** X13: [create_category] without a parent always succeeds.  The new category
    is active, has a fresh id and no parent, is listed by
    [get_all_categories], and is accepted at once as the parent of another
    new category. *)
Theorem root_category_is_always_created db category :
  value (CategoryCreate.parent_id category) = None ->
  exists new db',
    serve (create_category category) db = (inr new, db')
    /\ ~ In (CategoryModel.id new) (map CategoryModel.id (categories db))
    /\ CategoryModel.name new = CategoryCreate.name category
    /\ CategoryModel.parent_id new = None
    /\ CategoryModel.is_active new = true
    /\ (exists cs, serve get_all_categories db' = (inr cs, db') /\ In new cs)
    /\ (forall child,
           value (CategoryCreate.parent_id child)
           = Some (CategoryModel.id new) ->
           exists new_child db'',
             serve (create_category child) db' = (inr new_child, db'')
             /\ CategoryModel.parent_id new_child
                = Some (CategoryModel.id new)).
Proof.
  intros V. rewrite serve_create_category. cbv zeta. rewrite V.
  set (new := CategoryModel.mk _ _ _ _).
  exists new. eexists. split; [reflexivity|].
  split; [apply next_id_not_in|]. repeat (split; [reflexivity|]).
  assert (Hnew : In new (categories db ++ [new]))
    by (apply in_or_app; right; now left).
  split.
  - rewrite serve_get_all_categories. eexists. split; [reflexivity|].
    apply filter_In. now split.
  - intros child Vc. rewrite serve_create_category. cbv zeta. rewrite Vc.
    cbn [categories with_categories].
    rewrite scalar_inserted.
    + eexists _, _. split; reflexivity.
    + intros r. apply fresh_key_not_selected.
    + unfold active_category_by_id. cbn [new CategoryModel.id
        CategoryModel.is_active]. now rewrite Z.eqb_refl.
Qed.

Lemma found_after_update {R} (p sel : R -> bool) (u : R -> R)
  (table : list R) (r : R) :
  (forall x, p (u x) = p x) ->
  scalar (select_where p table) = Some r ->
  exists r', scalar (select_where p (update_where sel u table)) = Some r'.
Proof.
  intros Hp E. apply scalar_some in E as [Hr Pr].
  apply (scalar_found p _ (if sel r then u r else r)).
  - unfold update_where. apply in_map_iff. now exists r.
  - destruct (sel r); now rewrite ?Hp.
Qed.

(** X14: a successful [create_review] appends one row, active, dated [now], by
    the buyer, with a fresh id and a grade from 1 to 5; it leaves the
    categories alone and changes nothing in the products but the rating of
    the reviewed one; [get_reviews] and [get_reviews_by_product] list the
    new review. *)
Theorem created_review_round_trip db review current_buyer now new db' :
  serve (create_review review current_buyer now) db = (inr new, db') ->
  let product_id := ReviewCreate.product_id review in
  new = ReviewModel.mk (next_id (map ReviewModel.id (reviews db)))
                       (UserModel.id current_buyer) product_id
                       (ReviewCreate.comment review) now
                       (ReviewCreate.grade review) true
  /\ 1 <= ReviewModel.grade new <= 5
  /\ categories db' = categories db
  /\ reviews db' = (reviews db ++ [new])%list
  /\ (forall i p, nth_error (products db) i = Some p ->
        nth_error (products db') i =
        Some (if ProductModel.id p =? product_id
              then ProductModel.set_rating (expected_rating product_id db') p
              else p))
  /\ (exists rs, serve get_reviews db' = (inr rs, db') /\ In new rs)
  /\ (exists rs, serve (get_reviews_by_product product_id) db'
                 = (inr rs, db') /\ In new rs).
Proof.
  rewrite create_review_recomputes. cbv zeta.
  destruct (scalar _) as [product|] eqn:E; [|discriminate].
  destruct (ReviewModel.check_grade_range _) eqn:C; [|discriminate].
  intros [= <- <-].
  set (new := ReviewModel.mk _ _ _ _ _ _ _) in *.
  set (db1 := with_reviews _ db).
  assert (Hnew : In new (reviews db ++ [new]))
    by (apply in_or_app; right; now left).
  split; [reflexivity|]. split.
  { unfold ReviewModel.check_grade_range in C. lia. }
  split; [reflexivity|]. split; [reflexivity|]. split; [|split].
  - intros i p Hi. cbn [products with_products].
    rewrite (update_where_nth _ _ _ _ _ Hi).
    now rewrite (expected_rating_reviews _ db1 (with_products _ db1))
      by reflexivity.
  - rewrite serve_get_reviews. eexists. split; [reflexivity|].
    apply filter_In. now split.
  - rewrite serve_get_reviews_by_product. cbn [products with_products].
    destruct (found_after_update
                (active_product_by_id (ReviewCreate.product_id review))
                (product_by_id (ReviewCreate.product_id review))
                (ProductModel.set_rating
                   (expected_rating (ReviewCreate.product_id review) db1))
                (products db) product) as [p' ->]; trivial.
    eexists. split; [reflexivity|]. apply filter_In. split; trivial.
    cbn [new ReviewModel.product_id ReviewModel.is_active].
    now rewrite Z.eqb_refl.
Qed.

(** X15: [get_reviews_by_product] answers 404 unless an active product has the
    id; otherwise it returns exactly the active reviews of that product and
    writes nothing. *)
Theorem reviews_of_a_product db product_id :
  ((exists p, In p (products db) /\ ProductModel.id p = product_id
              /\ ProductModel.is_active p = true) ->
   exists rs,
     serve (get_reviews_by_product product_id) db = (inr rs, db)
     /\ forall r, In r rs <->
                  In r (reviews db)
                  /\ ReviewModel.product_id r = product_id
                  /\ ReviewModel.is_active r = true)
  /\ ((forall p, In p (products db) -> ProductModel.id p = product_id ->
                 ProductModel.is_active p = false) ->
      serve (get_reviews_by_product product_id) db =
      (inl (HTTPException 404 ("Product with id " ++ str product_id
                               ++ " does not exist.")), db)).
Proof.
  rewrite serve_get_reviews_by_product. split.
  - intros (p & Hp & Hid & Hact).
    destruct (scalar_found (active_product_by_id product_id) _ p Hp)
      as [p' ->].
    { unfold active_product_by_id. now rewrite Hid, Hact, Z.eqb_refl. }
    eexists. split; [reflexivity|]. intros r.
    rewrite filter_In, andb_true_iff, Z.eqb_eq. tauto.
  - intros None_active.
    destruct (scalar _) as [p|] eqn:E; [|reflexivity].
    apply scalar_some in E as [Hp P].
    pose proof (None_active p Hp (key_of_found_product _ _ P)) as Off.
    unfold active_product_by_id in P. rewrite Off, andb_false_r in P.
    discriminate.
Qed.

(** ** What an update changes *)

(** X16: a successful [update_category] leaves products and reviews alone and
    keeps every category row in place.  In the rows with the given id it
    writes the name, and the parent only if the request carries one
    (explicit null included); id and [is_active] are never written, and
    rows with another id are as before. *)
Theorem update_category_writes_supplied_fields
  db category_id category out db' :
  serve (update_category category_id category) db = (inr out, db') ->
  products db' = products db
  /\ reviews db' = reviews db
  /\ forall i c, nth_error (categories db) i = Some c ->
       nth_error (categories db') i =
       Some (if CategoryModel.id c =? category_id
             then CategoryModel.mk
                    (CategoryModel.id c)
                    (CategoryCreate.name category)
                    match CategoryCreate.parent_id category with
                    | Unset => CategoryModel.parent_id c
                    | Provided v => v
                    end
                    (CategoryModel.is_active c)
             else c).
Proof.
  rewrite serve_update_category.
  assert (W : forall i c, nth_error (categories db) i = Some c ->
    nth_error (update_where (category_by_id category_id)
                            (category_values category) (categories db)) i =
    Some (if CategoryModel.id c =? category_id
          then CategoryModel.mk
                 (CategoryModel.id c) (CategoryCreate.name category)
                 match CategoryCreate.parent_id category with
                 | Unset => CategoryModel.parent_id c
                 | Provided v => v
                 end
                 (CategoryModel.is_active c)
          else c)).
  { intros i c Hi. rewrite (update_where_nth _ _ _ _ _ Hi).
    unfold category_by_id, category_values.
    now destruct (_ =? _), (CategoryCreate.parent_id category). }
  branches; intros [= _ <-]; repeat split; exact W.
Qed.

(** X17: [update_category] looks the new parent up without the [is_active]
    filter: with unique ids, an active category can be moved under a
    deactivated one, which [create_category] refuses as a parent. *)
Theorem update_category_accepts_inactive_parent
  db category_id category c parent :
  NoDup (map CategoryModel.id (categories db)) ->
  In c (categories db) ->
  CategoryModel.id c = category_id ->
  CategoryModel.is_active c = true ->
  In parent (categories db) ->
  CategoryModel.is_active parent = false ->
  value (CategoryCreate.parent_id category) = Some (CategoryModel.id parent) ->
  (exists out db',
      serve (update_category category_id category) db = (inr out, db')
      /\ In (CategoryModel.mk category_id (CategoryCreate.name category)
                              (Some (CategoryModel.id parent)) true)
            (categories db'))
  /\ serve (create_category category) db =
     (inl (HTTPException 400 "Parent category not found"), db).
Proof.
  intros ND Hc Hid Hact Hp Hoff V. split.
  - rewrite serve_update_category.
    rewrite (scalar_unique CategoryModel.id _ _ c ND Hc).
    + cbv zeta. rewrite V.
      rewrite (scalar_unique CategoryModel.id _ _ parent ND Hp).
      * assert (CategoryModel.id parent <> category_id) as Ne.
        { intros E. rewrite <- Hid in E.
          apply (unique_key CategoryModel.id _ _ _ ND Hp Hc) in E.
          congruence. }
        apply Z.eqb_neq in Ne. rewrite Ne.
        eexists _, _. split; [reflexivity|].
        cbn [categories with_categories]. unfold update_where.
        apply in_map_iff. exists c. split; trivial.
        unfold category_by_id. rewrite Hid, Z.eqb_refl.
        unfold category_values.
        destruct (CategoryCreate.parent_id category) as [|v];
          [discriminate|]. cbn [value] in V. subst v.
        destruct c. cbn in *. now subst.
      * unfold category_by_id. apply Z.eqb_refl.
      * unfold category_by_id. intros x. apply Z.eqb_eq.
    + unfold active_category_by_id. now rewrite Hid, Hact, Z.eqb_refl.
    + intros x Hx. rewrite Hid. now apply key_of_found_category.
  - rewrite serve_create_category. cbv zeta. rewrite V.
    rewrite (scalar_unique_none CategoryModel.id _ _ parent ND Hp); trivial.
    + unfold active_category_by_id. now rewrite Hoff, andb_false_r.
    + intros x. apply key_of_found_category.
Qed.

(** X18: [update_category] refuses a category as its own parent, but not a
    longer cycle: with unique ids, an active category can be moved under
    its own child, after which each is the parent of the other. *)
Theorem update_category_allows_a_cycle db category a b :
  NoDup (map CategoryModel.id (categories db)) ->
  In a (categories db) ->
  In b (categories db) ->
  CategoryModel.is_active a = true ->
  CategoryModel.id b <> CategoryModel.id a ->
  CategoryModel.parent_id b = Some (CategoryModel.id a) ->
  value (CategoryCreate.parent_id category) = Some (CategoryModel.id b) ->
  exists out db',
    serve (update_category (CategoryModel.id a) category) db = (inr out, db')
    /\ In b (categories db')
    /\ exists a', In a' (categories db')
                  /\ CategoryModel.id a' = CategoryModel.id a
                  /\ CategoryModel.parent_id a' = Some (CategoryModel.id b).
Proof.
  intros ND Ha Hb Hact Ne Hpar V.
  rewrite serve_update_category.
  rewrite (scalar_unique CategoryModel.id _ _ a ND Ha).
  - cbv zeta. rewrite V.
    rewrite (scalar_unique CategoryModel.id _ _ b ND Hb).
    + apply Z.eqb_neq in Ne. rewrite Ne.
      eexists _, _. split; [reflexivity|].
      cbn [categories with_categories]. unfold update_where. split.
      * apply in_map_iff. exists b. split; trivial.
        unfold category_by_id. now rewrite Ne.
      * exists (category_values category a). split; [|split].
        -- apply in_map_iff. exists a. split; trivial.
           unfold category_by_id. now rewrite Z.eqb_refl.
        -- apply category_values_id.
        -- unfold category_values.
           destruct (CategoryCreate.parent_id category) as [|v];
             [discriminate|]. exact V.
    + unfold category_by_id. apply Z.eqb_refl.
    + unfold category_by_id. intros x. apply Z.eqb_eq.
  - unfold active_category_by_id. now rewrite Hact, Z.eqb_refl.
  - intros x. apply key_of_found_category.
Qed.

Lemma product_values_fields product_update p :
  let p' := product_values product_update p in
  ProductModel.id p' = ProductModel.id p
  /\ ProductModel.seller_id p' = ProductModel.seller_id p
  /\ ProductModel.rating p' = ProductModel.rating p
  /\ ProductModel.is_active p' = ProductModel.is_active p
  /\ ProductModel.name p' = ProductCreate.name product_update
  /\ ProductModel.price p' = ProductCreate.price product_update
  /\ ProductModel.stock p' = ProductCreate.stock product_update
  /\ ProductModel.description p' =
     match ProductCreate.description product_update with
     | Unset => ProductModel.description p
     | Provided v => v
     end
  /\ ProductModel.image_url p' =
     match ProductCreate.image_url product_update with
     | Unset => ProductModel.image_url p
     | Provided v => v
     end
  /\ ProductModel.category_id p' =
     match value (ProductCreate.category_id product_update) with
     | None => ProductModel.category_id p
     | Some v => v
     end.
Proof.
  unfold product_values.
  destruct (ProductCreate.description product_update),
           (ProductCreate.image_url product_update),
           (ProductCreate.category_id product_update) as [|[c|]];
    cbn; repeat split.
Qed.

(** X19: [update_product] succeeds only for the seller of the product.  It
    leaves categories and reviews alone and keeps every product row in
    place; a row with another id is as before, and in a row with the given
    id it writes name, price and stock, and description, image and category
    only if the request carries them, but never the id, the seller, the
    rating or [is_active]. *)
Theorem update_product_keeps_seller_and_rating
  db product_id product_update current_user out db' :
  serve (update_product product_id product_update current_user) db
  = (inr out, db') ->
  (exists p, In p (products db) /\ ProductModel.id p = product_id
             /\ ProductModel.seller_id p = UserModel.id current_user)
  /\ categories db' = categories db
  /\ reviews db' = reviews db
  /\ forall i p, nth_error (products db) i = Some p ->
       (ProductModel.id p <> product_id /\ nth_error (products db') i = Some p)
       \/ (ProductModel.id p = product_id
           /\ exists p',
                nth_error (products db') i = Some p'
                /\ ProductModel.id p' = ProductModel.id p
                /\ ProductModel.seller_id p' = ProductModel.seller_id p
                /\ ProductModel.rating p' = ProductModel.rating p
                /\ ProductModel.is_active p' = ProductModel.is_active p
                /\ ProductModel.name p' = ProductCreate.name product_update
                /\ ProductModel.price p' = ProductCreate.price product_update
                /\ ProductModel.stock p' = ProductCreate.stock product_update
                /\ ProductModel.description p' =
                   match ProductCreate.description product_update with
                   | Unset => ProductModel.description p
                   | Provided v => v
                   end
                /\ ProductModel.image_url p' =
                   match ProductCreate.image_url product_update with
                   | Unset => ProductModel.image_url p
                   | Provided v => v
                   end
                /\ ProductModel.category_id p' =
                   match value (ProductCreate.category_id product_update) with
                   | None => ProductModel.category_id p
                   | Some v => v
                   end).
Proof.
  rewrite serve_update_product.
  destruct (scalar _) as [product|] eqn:E; [|discriminate].
  destruct (_ =? _) eqn:S; [|discriminate].
  apply scalar_some in E as [Hin K]. unfold product_by_id in K.
  apply Z.eqb_eq in K, S.
  assert (W : forall i p, nth_error (products db) i = Some p ->
    (ProductModel.id p <> product_id
     /\ nth_error (update_where (product_by_id product_id)
                     (product_values product_update) (products db)) i
        = Some p)
    \/ (ProductModel.id p = product_id
        /\ nth_error (update_where (product_by_id product_id)
                        (product_values product_update) (products db)) i
           = Some (product_values product_update p))).
  { intros i p Hi. rewrite (update_where_nth _ _ _ _ _ Hi).
    unfold product_by_id.
    destruct (ProductModel.id p =? product_id) eqn:Kp.
    - right. now apply Z.eqb_eq in Kp.
    - left. now apply Z.eqb_neq in Kp. }
  intros H. split; [now exists product|].
  assert (db' = with_products (update_where (product_by_id product_id)
                                 (product_values product_update)
                                 (products db)) db) as ->.
  { revert H. cbv zeta. branches; congruence. }
  split; [reflexivity|]. split; [reflexivity|].
  intros i p Hi. cbn [products with_products].
  destruct (W i p Hi) as [[Ne Hn]|[Eq Hn]]; [now left|right].
  split; trivial. exists (product_values product_update p).
  split; trivial. apply product_values_fields.
Qed.

(** X20: a successful [delete_review] changes nothing in the products but the
    rating of the product of the deactivated review, which becomes the
    rating expected from the reviews that are left. *)
Theorem delete_review_touches_only_the_rating db review_id out db' :
  serve (delete_review review_id) db = (inr out, db') ->
  exists review,
    In review (reviews db)
    /\ ReviewModel.id review = review_id
    /\ ReviewModel.is_active review = true
    /\ forall i p, nth_error (products db) i = Some p ->
         nth_error (products db') i =
         Some (if ProductModel.id p =? ReviewModel.product_id review
               then ProductModel.set_rating
                      (expected_rating (ReviewModel.product_id review) db') p
               else p).
Proof.
  rewrite delete_review_recomputes.
  destruct (scalar _) as [review|] eqn:E; [|discriminate]. intros [= _ <-].
  apply scalar_some in E as [Hin P]. apply andb_prop in P as [Act K].
  apply Z.eqb_eq in K. exists review. repeat (split; trivial).
  intros i p Hi. cbv zeta. cbn [products with_products].
  rewrite (update_where_nth _ _ _ _ _ Hi).
  set (db1 := with_reviews _ db).
  now rewrite (expected_rating_reviews _ db1 (with_products _ db1))
    by reflexivity.
Qed.

(** ** The properties above on the scenarios *)

Lemma reachable_unique_ids_witness : unique_ids Scenario.reviewed.
Proof. apply reachable_unique_ids, run_reachable. Defined.

Lemma reachable_references_resolve_witness :
  references_resolve Scenario.reviewed.
Proof. apply reachable_references_resolve, run_reachable. Defined.

Lemma reachable_ratings_consistent_witness :
  ratings_consistent Scenario.reviewed.
Proof. apply reachable_ratings_consistent, run_reachable. Defined.

Lemma reachable_grades_in_range_witness : grades_in_range Scenario.reviewed.
Proof. apply reachable_grades_in_range, run_reachable. Defined.

Lemma reachable_rating_bounds_witness :
  (3 # 1 = 0)%Q \/ (1 <= 3 # 1 <= 5)%Q.
Proof.
  apply (reachable_rating_bounds Scenario.reviewed
           (ProductModel.mk 1 "P" None 10%Q None 3 true 3%Q 1 1)).
  - apply run_reachable.
  - vm_compute. now left.
Defined.

Lemma failed_request_changes_nothing_witness :
  step Scenario.shop (DELETE_products 1 Scenario.S2) = Scenario.shop.
Proof.
  apply (failed_request_changes_nothing Scenario.shop
           (DELETE_products 1 Scenario.S2)
           (HTTPException 403 "You can only delete your products")).
  reflexivity.
Defined.

Lemma deleted_category_is_gone_witness :
  serve (delete_category 1) Scenario.shop_without_A =
  (inl (HTTPException 404 "Category not found"), Scenario.shop_without_A)
  /\ serve (create_category Scenario.B) Scenario.shop_without_A =
     (inl (HTTPException 400 "Parent category not found"),
      Scenario.shop_without_A)
  /\ serve (create_product Scenario.P Scenario.S1) Scenario.shop_without_A =
     (inl (HTTPException 404 "Category not found"), Scenario.shop_without_A).
Proof.
  destruct (deleted_category_is_gone Scenario.shop 1
              ("success", "Category with ID 1 marked as inactive")
              Scenario.shop_without_A eq_refl)
    as (_ & _ & Hdel & _ & Hparent & Hproduct).
  split; [exact Hdel|]. split.
  - apply Hparent. reflexivity.
  - apply Hproduct. reflexivity.
Defined.

Lemma deleted_product_is_gone_witness :
  serve (get_product 1) Examples.shop_without_P =
  (inl (HTTPException 404 "Product not found"), Examples.shop_without_P)
  /\ serve (create_review (Scenario.R 4) Scenario.buyer1 100)
           Examples.shop_without_P =
     (inl (HTTPException 404 "Product with id 1 does not exist."),
      Examples.shop_without_P).
Proof.
  destruct (deleted_product_is_gone Scenario.shop 1 Scenario.S1
              ("success", "Product marked as inactive")
              Examples.shop_without_P eq_refl)
    as (_ & _ & _ & _ & _ & Hget & _ & Hreview & _).
  split; [exact Hget|]. now apply Hreview.
Defined.

Lemma deleted_review_is_gone_witness :
  serve (delete_review 1) Examples.reviewed_without_first =
  (inl (HTTPException 404 "Review with id 1 does not exist."),
   Examples.reviewed_without_first).
Proof.
  apply (deleted_review_is_gone Scenario.reviewed 1
           "Review marked as inactive" Examples.reviewed_without_first
           eq_refl).
Defined.

Lemma created_product_round_trip_witness :
  exists new db',
    serve (create_product Scenario.P Scenario.S2) Scenario.shop = (inr new, db')
    /\ ProductModel.seller_id new = 2
    /\ serve (get_product (ProductModel.id new)) db' = (inr new, db').
Proof.
  destruct (created_product_round_trip Scenario.shop Scenario.P Scenario.S2 1
              eq_refl)
    as (new & db' & E & _ & Hs & _ & _ & _ & Hget & _).
  - exists (CategoryModel.mk 1 "A" None true).
    split; [vm_compute; now left|]. split; reflexivity.
  - exists new, db'. split; [exact E|]. split; [exact Hs|exact Hget].
Defined.

Lemma root_category_is_always_created_witness :
  exists new db',
    serve (create_category Examples.C) Scenario.shop = (inr new, db')
    /\ CategoryModel.is_active new = true
    /\ exists cs, serve get_all_categories db' = (inr cs, db') /\ In new cs.
Proof.
  destruct (root_category_is_always_created Scenario.shop Examples.C eq_refl)
    as (new & db' & E & _ & _ & _ & Hact & Hlist & _).
  exists new, db'. split; [exact E|]. split; [exact Hact|exact Hlist].
Defined.

Lemma created_review_round_trip_witness :
  reviews Examples.shop_reviewed =
  [ReviewModel.mk 1 3 1 "ok" 100 4 true]
  /\ exists rs,
       serve (get_reviews_by_product 1) Examples.shop_reviewed
       = (inr rs, Examples.shop_reviewed)
       /\ In (ReviewModel.mk 1 3 1 "ok" 100 4 true) rs.
Proof.
  destruct (created_review_round_trip Scenario.shop (Scenario.R 4)
              Scenario.buyer1 100 (ReviewModel.mk 1 3 1 "ok" 100 4 true)
              Examples.shop_reviewed eq_refl)
    as (_ & _ & _ & Hr & _ & _ & Hlist).
  split; [exact Hr|exact Hlist].
Defined.

Lemma reviews_of_a_product_witness :
  (exists rs,
      serve (get_reviews_by_product 1) Scenario.reviewed
      = (inr rs, Scenario.reviewed)
      /\ forall r, In r rs <->
                   In r (reviews Scenario.reviewed)
                   /\ ReviewModel.product_id r = 1
                   /\ ReviewModel.is_active r = true)
  /\ serve (get_reviews_by_product 7) Scenario.reviewed =
     (inl (HTTPException 404 "Product with id 7 does not exist."),
      Scenario.reviewed).
Proof.
  split.
  - apply (proj1 (reviews_of_a_product Scenario.reviewed 1)).
    exists (ProductModel.mk 1 "P" None 10%Q None 3 true 3%Q 1 1).
    split; [vm_compute; now left|]. split; reflexivity.
  - apply (proj2 (reviews_of_a_product Scenario.reviewed 7)).
    intros p Hp Hid. vm_compute in Hp.
    destruct Hp as [<-|[<-|[]]]; vm_compute in Hid; discriminate.
Defined.

Lemma update_category_writes_supplied_fields_witness :
  products Examples.shop_with_A_renamed = products Scenario.shop
  /\ nth_error (categories Examples.shop_with_A_renamed) 0 =
     Some (CategoryModel.mk 1 "A2" None true)
  /\ nth_error (categories Examples.shop_with_A_renamed) 1 =
     Some (CategoryModel.mk 2 "B" (Some 1) true).
Proof.
  destruct (update_category_writes_supplied_fields Scenario.shop 1
              Examples.A_renamed (CategoryModel.mk 1 "A2" None true)
              Examples.shop_with_A_renamed eq_refl)
    as (Hp & _ & Hrow).
  split; [exact Hp|]. split.
  - apply (Hrow 0%nat (CategoryModel.mk 1 "A" None true)). reflexivity.
  - apply (Hrow 1%nat (CategoryModel.mk 2 "B" (Some 1) true)). reflexivity.
Defined.

Lemma update_category_accepts_inactive_parent_witness :
  (exists out db',
      serve (update_category 2 Examples.C_under_A)
            Examples.C_beside_deactivated_A = (inr out, db')
      /\ In (CategoryModel.mk 2 "C" (Some 1) true) (categories db'))
  /\ serve (create_category Examples.C_under_A)
           Examples.C_beside_deactivated_A =
     (inl (HTTPException 400 "Parent category not found"),
      Examples.C_beside_deactivated_A).
Proof.
  apply (update_category_accepts_inactive_parent
           Examples.C_beside_deactivated_A 2 Examples.C_under_A
           (CategoryModel.mk 2 "C" None true)
           (CategoryModel.mk 1 "A" None false)).
  - vm_compute. repeat constructor; simpl; intuition discriminate.
  - vm_compute. right. now left.
  - reflexivity.
  - reflexivity.
  - vm_compute. now left.
  - reflexivity.
  - reflexivity.
Defined.

Lemma update_category_allows_a_cycle_witness :
  exists out db',
    serve (update_category 1 Examples.A_under_B) Scenario.two_categories
    = (inr out, db')
    /\ In (CategoryModel.mk 2 "B" (Some 1) true) (categories db')
    /\ exists a', In a' (categories db')
                  /\ CategoryModel.id a' = 1
                  /\ CategoryModel.parent_id a' = Some 2.
Proof.
  apply (update_category_allows_a_cycle Scenario.two_categories
           Examples.A_under_B (CategoryModel.mk 1 "A" None true)
           (CategoryModel.mk 2 "B" (Some 1) true)).
  - vm_compute. repeat constructor; simpl; intuition discriminate.
  - vm_compute. now left.
  - vm_compute. right. now left.
  - reflexivity.
  - vm_compute. discriminate.
  - reflexivity.
  - reflexivity.
Defined.

Lemma update_product_keeps_seller_and_rating_witness :
  categories Examples.shop_with_P_renamed = categories Scenario.shop
  /\ reviews Examples.shop_with_P_renamed = reviews Scenario.shop
  /\ exists p, In p (products Scenario.shop) /\ ProductModel.id p = 1
               /\ ProductModel.seller_id p = 1.
Proof.
  destruct (update_product_keeps_seller_and_rating Scenario.shop 1
              Scenario.P_renamed Scenario.S1
              (ProductModel.mk 1 "P2" None 12%Q None 3 true 0%Q 1 1)
              Examples.shop_with_P_renamed eq_refl)
    as (Hs & Hc & Hr & _).
  split; [exact Hc|]. split; [exact Hr|exact Hs].
Defined.

Lemma delete_review_touches_only_the_rating_witness :
  exists review,
    In review (reviews Scenario.reviewed)
    /\ ReviewModel.id review = 1
    /\ ReviewModel.is_active review = true
    /\ forall i p, nth_error (products Scenario.reviewed) i = Some p ->
         nth_error (products Examples.reviewed_without_first) i =
         Some (if ProductModel.id p =? ReviewModel.product_id review
               then ProductModel.set_rating
                      (expected_rating (ReviewModel.product_id review)
                                       Examples.reviewed_without_first) p
               else p).
Proof.
  apply (delete_review_touches_only_the_rating Scenario.reviewed 1
           "Review marked as inactive" Examples.reviewed_without_first
           eq_refl).
Defined.

(** ** Ratings after a review is created or deactivated *)

Lemma expected_rating_nonempty product_id db :
  active_grades product_id db <> [] ->
  expected_rating product_id db
  = func_round (mean (active_grades product_id db)) 2.
Proof.
  unfold expected_rating. now destruct (active_grades product_id db).
Qed.

Lemma expected_rating_empty product_id db :
  active_grades product_id db = [] -> expected_rating product_id db = 0%Q.
Proof. unfold expected_rating. now intros ->. Qed.

Lemma rating_row_found (table : list ProductModel.t) (rating : Q)
  product_id p :
  In p table -> ProductModel.id p = product_id ->
  exists p', In p' (update_where (product_by_id product_id)
                                 (ProductModel.set_rating rating) table)
             /\ ProductModel.id p' = product_id
             /\ ProductModel.rating p' = rating.
Proof.
  intros Hp Hid. exists (ProductModel.set_rating rating p).
  split; [|now split]. unfold update_where. apply in_map_iff.
  exists p. split; trivial. unfold product_by_id.
  now rewrite Hid, Z.eqb_refl.
Qed.

(** C1: creating a review of an active product with a grade from 1 to 5
    succeeds, and so does deactivating an active review (review ids being
    unique).  A creation appends the new active review and nothing else; a
    deactivation changes only [is_active] of the review.  Either way the
    categories are as before, every product row stays in its place, and the
    only change in the products is that the rating of the reviewed product
    becomes [func_round] of the average grade of its active reviews, a whole
    number of hundredths within half a hundredth of that average.  After a
    creation there is always such a review and the reviewed product is there
    with that rating; after a deactivation this holds when an active review
    remains. *)
Theorem rating_is_rounded_average :
  (forall db review current_buyer now,
      let product_id := ReviewCreate.product_id review in
      (exists p, In p (products db)
                 /\ ProductModel.id p = product_id
                 /\ ProductModel.is_active p = true) ->
      1 <= ReviewCreate.grade review <= 5 ->
      exists db_review db',
        serve (create_review review current_buyer now) db
        = (inr db_review, db')
        /\ categories db' = categories db
        /\ reviews db' = (reviews db ++ [db_review])%list
        /\ ReviewModel.product_id db_review = product_id
        /\ ReviewModel.grade db_review = ReviewCreate.grade review
        /\ ReviewModel.is_active db_review = true
        /\ active_grades product_id db'
           = (active_grades product_id db ++ [ReviewCreate.grade review])%list
        /\ length (products db') = length (products db)
        /\ let avg := mean (active_grades product_id db') in
           rounded_to_2_places (func_round avg 2) avg
           /\ (forall i p, nth_error (products db) i = Some p ->
                 nth_error (products db') i =
                 Some (if ProductModel.id p =? product_id
                       then ProductModel.set_rating (func_round avg 2) p
                       else p))
           /\ (exists p, In p (products db')
                         /\ ProductModel.id p = product_id
                         /\ ProductModel.rating p = func_round avg 2)
           /\ (forall p, In p (products db') ->
                         ProductModel.id p = product_id ->
                         ProductModel.rating p = func_round avg 2))
  /\
  (forall db review_id review,
      let product_id := ReviewModel.product_id review in
      NoDup (map ReviewModel.id (reviews db)) ->
      In review (reviews db) ->
      ReviewModel.id review = review_id ->
      ReviewModel.is_active review = true ->
      exists db',
        serve (delete_review review_id) db
        = (inr "Review marked as inactive", db')
        /\ categories db' = categories db
        /\ length (reviews db') = length (reviews db)
        /\ (forall i r, nth_error (reviews db) i = Some r ->
              nth_error (reviews db') i =
              Some (if ReviewModel.id r =? review_id
                    then ReviewModel.set_is_active false r else r))
        /\ In (ReviewModel.set_is_active false review) (reviews db')
        /\ length (products db') = length (products db)
        /\ (active_grades product_id db' <> [] ->
            let avg := mean (active_grades product_id db') in
            rounded_to_2_places (func_round avg 2) avg
            /\ (forall i p, nth_error (products db) i = Some p ->
                  nth_error (products db') i =
                  Some (if ProductModel.id p =? product_id
                        then ProductModel.set_rating (func_round avg 2) p
                        else p))
            /\ (forall p, In p (products db') ->
                          ProductModel.id p = product_id ->
                          ProductModel.rating p = func_round avg 2))).
Proof.
  split.
  - intros db review current_buyer now product_id (p0 & Hp0 & Hid0 & Hact0) Hg.
    rewrite create_review_recomputes. cbv zeta. fold product_id.
    destruct (scalar_found (active_product_by_id product_id) _ p0 Hp0)
      as [product ->].
    { unfold active_product_by_id. now rewrite Hid0, Hact0, Z.eqb_refl. }
    unfold ReviewModel.check_grade_range. cbn [ReviewModel.grade].
    replace (1 <=? ReviewCreate.grade review) with true by (symmetry; lia).
    replace (ReviewCreate.grade review <=? 5) with true by (symmetry; lia).
    cbn [andb].
    set (db_review := ReviewModel.mk _ _ _ _ _ _ _).
    set (db1 := with_reviews _ db).
    assert (G : active_grades product_id db1
                = (active_grades product_id db
                   ++ [ReviewCreate.grade review])%list).
    { unfold db1. rewrite active_grades_insert.
      cbn [db_review ReviewModel.is_active ReviewModel.product_id
           ReviewModel.grade andb]. now rewrite Z.eqb_refl. }
    assert (NE : active_grades product_id db1 <> []).
    { rewrite G. intros E. now apply app_eq_nil in E as [_ E]. }
    rewrite (expected_rating_nonempty _ _ NE).
    exists db_review. eexists. split; [reflexivity|].
    cbn [categories reviews products with_products].
    rewrite (active_grades_reviews product_id db1 (with_products _ db1))
      by reflexivity.
    split; [reflexivity|]. split; [reflexivity|].
    split; [reflexivity|]. split; [reflexivity|]. split; [reflexivity|].
    split; [exact G|]. split; [apply update_where_length|].
    split; [apply func_round_2_places|]. split; [|split].
    + intros i p Hi. now rewrite (update_where_nth _ _ _ _ _ Hi).
    + now apply rating_row_found with (p := p0).
    + intros p Hp Hid. now apply (recomputed_rating _ _ _ _ Hp).
  - intros db review_id review product_id ND Hr Hid Hact.
    rewrite delete_review_recomputes.
    rewrite (find_active_review db review_id review ND Hr Hid Hact).
    cbv zeta. fold product_id. set (db1 := with_reviews _ db).
    eexists. split; [reflexivity|].
    cbn [categories reviews products with_products].
    rewrite (active_grades_reviews product_id db1 (with_products _ db1))
      by reflexivity.
    split; [reflexivity|]. split; [apply update_where_length|]. split.
    { intros i r Hi. cbn [db1 reviews with_reviews].
      now rewrite (update_where_nth _ _ _ _ _ Hi). }
    split.
    { cbn [db1 reviews with_reviews]. unfold update_where.
      apply in_map_iff. exists review. split; trivial.
      now rewrite Hid, Z.eqb_refl. }
    split; [apply update_where_length|].
    intros NE. rewrite (expected_rating_nonempty _ _ NE).
    split; [apply func_round_2_places|]. split.
    + intros i p Hi. now rewrite (update_where_nth _ _ _ _ _ Hi).
    + intros p Hp Hidp. now apply (recomputed_rating _ _ _ _ Hp).
Qed.

Lemma rating_is_rounded_average_witness :
  (exists db_review db',
      serve (create_review (Scenario.R 5) Scenario.buyer1 102)
            Scenario.reviewed
      = (inr db_review, db')
      /\ reviews db' = (reviews Scenario.reviewed ++ [db_review])%list
      /\ active_grades 1 db' = [4; 2; 5]
      /\ nth_error (products db') 0 =
         Some (ProductModel.mk 1 "P" None 10%Q None 3 true
                 (func_round (mean (active_grades 1 db')) 2) 1 1))
  /\
  (exists db',
      serve (delete_review 1) Scenario.reviewed
      = (inr "Review marked as inactive", db')
      /\ In (ReviewModel.mk 1 3 1 "ok" 100 4 false) (reviews db')
      /\ active_grades 1 db' <> []
      /\ nth_error (products db') 0 =
         Some (ProductModel.mk 1 "P" None 10%Q None 3 true
                 (func_round (mean (active_grades 1 db')) 2) 1 1)).
Proof.
  split.
  - destruct (proj1 rating_is_rounded_average Scenario.reviewed
                (Scenario.R 5) Scenario.buyer1 102)
      as (db_review & db' & E & _ & Hr & _ & _ & _ & G & _ & _ & Hrow & _).
    + exists (ProductModel.mk 1 "P" None 10%Q None 3 true 3%Q 1 1).
      split; [vm_compute; now left|]. split; reflexivity.
    + cbn. lia.
    + exists db_review, db'. split; [exact E|]. split; [exact Hr|].
      split; [exact G|].
      apply (Hrow 0%nat (ProductModel.mk 1 "P" None 10%Q None 3 true 3%Q 1 1)).
      reflexivity.
  - destruct (proj2 rating_is_rounded_average Scenario.reviewed 1
                (ReviewModel.mk 1 3 1 "ok" 100 4 true))
      as (db' & E & _ & _ & _ & Hin & _ & H).
    + vm_compute. repeat constructor; simpl; intuition discriminate.
    + vm_compute. now left.
    + reflexivity.
    + reflexivity.
    + exists db'. split; [exact E|]. split; [exact Hin|].
      assert (NE : active_grades 1 db' <> []).
      { vm_compute in E. injection E as <-. vm_compute. discriminate. }
      split; [exact NE|]. destruct (H NE) as (_ & Hrow & _).
      apply (Hrow 0%nat (ProductModel.mk 1 "P" None 10%Q None 3 true 3%Q 1 1)).
      reflexivity.
Defined.

(** C2: deactivating an active review (review ids being unique) succeeds;
    it changes only [is_active] of that review and leaves the categories as
    they were and every product row in its place.  If the product of the
    review is then left without an active review, the only change in the
    products is that the rating of that product is set to 0. *)
Theorem rating_zero_without_active_reviews db review_id review :
  let product_id := ReviewModel.product_id review in
  NoDup (map ReviewModel.id (reviews db)) ->
  In review (reviews db) ->
  ReviewModel.id review = review_id ->
  ReviewModel.is_active review = true ->
  exists db',
    serve (delete_review review_id) db = (inr "Review marked as inactive", db')
    /\ categories db' = categories db
    /\ length (reviews db') = length (reviews db)
    /\ (forall i r, nth_error (reviews db) i = Some r ->
          nth_error (reviews db') i =
          Some (if ReviewModel.id r =? review_id
                then ReviewModel.set_is_active false r else r))
    /\ In (ReviewModel.set_is_active false review) (reviews db')
    /\ length (products db') = length (products db)
    /\ (active_grades product_id db' = [] ->
        (forall i p, nth_error (products db) i = Some p ->
           nth_error (products db') i =
           Some (if ProductModel.id p =? product_id
                 then ProductModel.set_rating 0%Q p else p))
        /\ (forall p, In p (products db') ->
                      ProductModel.id p = product_id ->
                      ProductModel.rating p = 0%Q)).
Proof.
  intros product_id ND Hr Hid Hact. rewrite delete_review_recomputes.
  rewrite (find_active_review db review_id review ND Hr Hid Hact).
  cbv zeta. fold product_id. set (db1 := with_reviews _ db).
  eexists. split; [reflexivity|].
  cbn [categories reviews products with_products].
  rewrite (active_grades_reviews product_id db1 (with_products _ db1))
    by reflexivity.
  split; [reflexivity|]. split; [apply update_where_length|]. split.
  { intros i r Hi. cbn [db1 reviews with_reviews].
    now rewrite (update_where_nth _ _ _ _ _ Hi). }
  split.
  { cbn [db1 reviews with_reviews]. unfold update_where.
    apply in_map_iff. exists review. split; trivial.
    now rewrite Hid, Z.eqb_refl. }
  split; [apply update_where_length|].
  intros E. rewrite (expected_rating_empty _ _ E). split.
  - intros i p Hi. now rewrite (update_where_nth _ _ _ _ _ Hi).
  - intros p Hp Hidp. apply update_where_In in Hp as (p0 & _ & ->).
    unfold product_by_id in *.
    destruct (ProductModel.id p0 =? product_id) eqn:K; [reflexivity|].
    apply Z.eqb_neq in K. contradiction.
Qed.

Lemma rating_zero_without_active_reviews_witness :
  exists db',
    serve (delete_review 1) Scenario.reviewed_once
    = (inr "Review marked as inactive", db')
    /\ In (ReviewModel.mk 1 3 1 "ok" 100 5 false) (reviews db')
    /\ active_grades 1 db' = []
    /\ nth_error (products Scenario.reviewed_once) 0 =
       Some (ProductModel.mk 1 "P" None 10%Q None 3 true 5%Q 1 1)
    /\ nth_error (products db') 0 =
       Some (ProductModel.mk 1 "P" None 10%Q None 3 true 0%Q 1 1).
Proof.
  destruct (rating_zero_without_active_reviews Scenario.reviewed_once 1
              (ReviewModel.mk 1 3 1 "ok" 100 5 true))
    as (db' & E & _ & _ & _ & Hin & _ & H).
  - vm_compute. repeat constructor; simpl; intuition discriminate.
  - vm_compute. now left.
  - reflexivity.
  - reflexivity.
  - exists db'. split; [exact E|]. split; [exact Hin|].
    assert (NE : active_grades 1 db' = []).
    { vm_compute in E. injection E as <-. reflexivity. }
    split; [exact NE|]. split; [reflexivity|].
    destruct (H NE) as (Hrow & _).
    apply (Hrow 0%nat (ProductModel.mk 1 "P" None 10%Q None 3 true 5%Q 1 1)).
    reflexivity.
Defined.
